(** * Unified-Model: component models, flux database and solver orchestration

    A shallow embedding of the Python sources

      - [unified_model/mechanical_components/damper.py]
      - [unified_model/mechanical_system/spring/magnetic_spring.py]
      - [unified_model/electrical_model.py]
      - [unified_model/electrical_system/flux/utils.py]
      - [unified_model/unified.py]

    Python objects are records, a method is a function from the object's
    state to an outcome (a value or a raised exception) and the state after
    the call.  Python floats are IEEE binary64 numbers (Rocq's primitive
    floats), so [inf] and [nan] behave as they do in the interpreter. *)

From Stdlib Require Import Floats ZArith List Ascii String.
From stdpp Require Import gmap strings list.

(** ** The Python runtime the sources rely on *)

(** The exception classes the modelled code raises. *)
Inductive exn : Set :=
  | KeyError
  | TypeError
  | ValueError
  | IndexError
  | AttributeError
  | ZeroDivisionError
  | FileExistsError
  | FileNotFoundError
  | IsADirectoryError
  | UnpicklingError.

(** The outcome of evaluating an expression or a call. *)
Inductive result (A : Type) : Type :=
  | Ok (a : A)
  | Raise (e : exn).
Arguments Ok {A} a.
Arguments Raise {A} e.

Definition result_bind {A B} (r : result A) (k : A -> result B) : result B :=
  match r with
  | Ok a => k a
  | Raise e => Raise e
  end.

(** A method of an object with state [St]: the outcome and the state the
    object is left in (also when the call raises). *)
Definition meth (St A : Type) : Type := St -> result A * St.

Definition ret {St A} (a : A) : meth St A := fun s => (Ok a, s).
Definition raise {St A} (e : exn) : meth St A := fun s => (Raise e, s).
Definition bind {St A B} (c : meth St A) (k : A -> meth St B) : meth St B :=
  fun s =>
    match c s with
    | (Ok a, s') => k a s'
    | (Raise e, s') => (Raise e, s')
    end.
(** Read an attribute: [self.f]. *)
Definition gets {St A} (f : St -> A) : meth St A := fun s => (Ok (f s), s).
(** Assign attributes: [self.f = v]. *)
Definition modify {St} (f : St -> St) : meth St unit := fun s => (Ok tt, f s).
(** Use the outcome of a pure expression. *)
Definition lift {St A} (r : result A) : meth St A := fun s => (r, s).

Declare Scope meth_scope.
Delimit Scope meth_scope with meth.
Notation "'let*' x := c 'in' k" := (bind c (fun x => k))
  (at level 10, x name, c at level 100, k at level 200) : meth_scope.

(** The value a call returns, and the object after it. *)
Definition outcome {St A} (c : meth St A) (s : St) : result A := fst (c s).
Definition after {St A} (c : meth St A) (s : St) : St := snd (c s).

(** A call that leaves every attribute of the object as it found it. *)
Definition readonly {St A} (c : meth St A) : Prop := forall s, after c s = s.

(** Python numbers as the sources return them: the literal [0] is an [int],
    arithmetic on floats gives a [float]. *)
Inductive number : Set :=
  | PyInt (n : Z)
  | PyFloat (x : float).

(** [a / b] on Python floats: a zero divisor raises. *)
Definition truediv (a b : float) : result float :=
  if PrimFloat.is_zero b then Raise ZeroDivisionError else Ok (a / b)%float.

(** [np.isinf] on a scalar. *)
Definition isinf (x : float) : bool := PrimFloat.is_infinity x.

(** ** [mechanical_components/damper.py] *)

Module ConstantDamper.

Record t : Set := { damping_coefficient : float }.

Definition __init__ (damping_coefficient : float) : t :=
  {| damping_coefficient := damping_coefficient |}.

(** [return self.damping_coefficient * velocity] *)
Definition get_force (velocity : float) : meth t float :=
  (let* c := gets damping_coefficient in
   ret (c * velocity)%float)%meth.

End ConstantDamper.

(** ** [mechanical_system/spring/magnetic_spring.py] *)

Module MagneticSpring.

(** A Python callable applied to positional arguments.  For the iterative
    fit it is one of the closed-form force laws of [MODEL_DICT], called as
    [model(z, *parameters)]; for the interpolated fit it is the
    interpolator, called as [model(z)]. *)
Definition callable : Type := list float -> result float.

Record t : Type := {
  model_parameters : option (list float);
  model_type : string;
  model : callable
}.

(** [get_force]: the branch on [self.model_type is 'interp'], an identity
    test that the interpreter answers like equality for the string
    literals the constructor is given; unpacking [*self.model_parameters]
    raises when no parameters were fitted. *)
Definition get_force (z : float) : meth t float :=
  (let* ty := gets model_type in
   let* f := gets model in
   if String.eqb ty "interp" then lift (f [z])
   else
     let* ps := gets model_parameters in
     match ps with
     | None => raise TypeError
     | Some ps => lift (f (z :: ps))
     end)%meth.

(** [get_force_array]: [[self.get_force(z) for z in z_array]]. *)
Fixpoint get_force_array (z_array : list float) : meth t (list float) :=
  match z_array with
  | [] => ret []
  | z :: zs =>
      (let* f := get_force z in
       let* fs := get_force_array zs in
       ret (f :: fs))%meth
  end.

End MagneticSpring.

(** ** [electrical_model.py] *)

(** [delta_x=1e-3]: the binary64 number nearest to one thousandth. *)
Definition delta_x : float := 0x1.0624dd2f1a9fcp-10%float.

(** [_gradient(f, x, delta_x=1e-3)]: [2*delta_x] is not zero, so the
    division never raises. *)
Definition _gradient (f : float -> float) (x : float) : float :=
  let gradient := ((f (x + delta_x) - f (x - delta_x)) / (2 * delta_x))%float in
  if isinf gradient then 0%float else gradient.

Module ElectricalModel.

(** The load model: only its resistance [R] is read. *)
Record Load : Set := { R : float }.

Record t : Type := {
  name : string;
  flux_model : option (float -> float);
  (** [dflux_model] exists only once [set_flux_model] has run. *)
  dflux_model : option (float -> float);
  coil_resistance : float;
  load_model : option Load;
  flux_gradient : option (float -> float);
  precompute_gradient : bool
}.

Definition __init__ (name : string) : t :=
  {| name := name;
     flux_model := None;
     dflux_model := None;
     coil_resistance := infinity;
     load_model := None;
     flux_gradient := None;
     precompute_gradient := false |}.

Definition set_flux_model (flux dflux : float -> float) : meth t unit :=
  modify (fun m =>
    {| name := name m;
       flux_model := Some flux;
       dflux_model := Some dflux;
       coil_resistance := coil_resistance m;
       load_model := load_model m;
       flux_gradient := flux_gradient m;
       precompute_gradient := precompute_gradient m |}).

Definition set_coil_resistance (r : float) : meth t unit :=
  modify (fun m =>
    {| name := name m;
       flux_model := flux_model m;
       dflux_model := dflux_model m;
       coil_resistance := r;
       load_model := load_model m;
       flux_gradient := flux_gradient m;
       precompute_gradient := precompute_gradient m |}).

Definition set_load_model (l : Load) : meth t unit :=
  modify (fun m =>
    {| name := name m;
       flux_model := flux_model m;
       dflux_model := dflux_model m;
       coil_resistance := coil_resistance m;
       load_model := Some l;
       flux_gradient := flux_gradient m;
       precompute_gradient := precompute_gradient m |}).

(** Calling an attribute that holds [None] raises [TypeError]. *)
Definition call (f : option (float -> float)) (x : float) : result float :=
  match f with
  | Some f => Ok (f x)
  | None => Raise TypeError
  end.

(** [get_flux_gradient]: [x1, x2, x3, x4, x5 = y] raises unless [y] has
    five components. *)
Definition get_flux_gradient (y : list float) : meth t float :=
  match y with
  | [x1; x2; x3; x4; x5] =>
      (let* pre := gets precompute_gradient in
       if pre then
         let* g := gets flux_gradient in
         lift (call g (x3 - x1)%float)
       else
         let* f := gets flux_model in
         match f with
         | Some f => ret (_gradient f (x3 - x1)%float)
         | None => raise TypeError
         end)%meth
  | _ => raise ValueError
  end.

(** [get_emf]: [self.dflux_model(mag_pos) * mag_vel]. *)
Definition get_emf (mag_pos mag_vel : float) : meth t float :=
  (let* d := gets dflux_model in
   match d with
   | Some d => ret (d mag_pos * mag_vel)%float
   | None => raise AttributeError
   end)%meth.

(** [get_current]: [0] without a load, else
    [v_load = emf_oc * r_load / (r_load + r_coil)] and [v_load / r_load]. *)
Definition get_current (emf_oc : float) : meth t number :=
  (let* l := gets load_model in
   match l with
   | None => ret (PyInt 0)
   | Some l =>
       let r_load := R l in
       let* r_coil := gets coil_resistance in
       let* v_load := lift (truediv (emf_oc * r_load) (r_load + r_coil))%float in
       let* i := lift (truediv v_load r_load) in
       ret (PyFloat i)
   end)%meth.

End ElectricalModel.

(** ** [electrical_system/flux/utils.py] *)

Module FluxDatabase.

(** A parameter value as a caller can give it: a string (the headers of
    the exported file give strings), a number, or [None] (the outer
    [option]). *)
Inductive value : Set :=
  | VStr (s : string)
  | VInt (n : Z).

#[export] Instance value_eq_dec : EqDecision value.
Proof. solve_decision. Defined.

Definition value_to_sum (v : value) : string + Z :=
  match v with VStr s => inl s | VInt n => inr n end.
Definition value_of_sum (x : string + Z) : value :=
  match x with inl s => VStr s | inr n => VInt n end.

#[export] Instance value_countable : Countable value.
Proof.
  apply (inj_countable' value_to_sum value_of_sum).
  intros []; reflexivity.
Defined.

(** A slot of [db_key]: [None] until a keyword fills it. *)
Definition slot : Set := option value.
(** [**kwargs] and [key_dict]: names with their values, in the order the
    dictionary holds them. *)
Definition kwargs : Set := list (string * slot).

Section Database.

(** What the database stores: any Python object. *)
Context {V : Type}.

Record t : Type := {
  velocity : float;
  lut : option (gmap string nat);
  database : gmap (list slot) V
}.

Definition set_lut (l : gmap string nat) (db : t) : t :=
  {| velocity := velocity db; lut := Some l; database := database db |}.
Definition set_database (d : gmap (list slot) V) (db : t) : t :=
  {| velocity := velocity db; lut := lut db; database := d |}.

(** [for i, k in enumerate(key_list): self.lut[k] = i], counting from
    [i]. *)
Fixpoint enumerate_into (i : nat) (key_list : list string)
    (l : gmap string nat) : gmap string nat :=
  match key_list with
  | [] => l
  | k :: ks => enumerate_into (S i) ks (<[k := i]> l)
  end.

Definition index_of (key_list : list string) : gmap string nat :=
  enumerate_into 0 key_list ∅.

(** [_create_index]: builds the look-up table once. *)
Definition _create_index (key_list : list string) : meth t unit :=
  (let* l := gets lut in
   match l with
   | None => modify (set_lut (index_of key_list))
   | Some _ => raise ValueError
   end)%meth.

(** The loop of [_make_db_key]:
    [for key in kwargs: db_key[self.lut[key]] = kwargs[key]].
    [self.lut[key]] raises [KeyError] on an unknown name, the list
    assignment raises [IndexError] out of range. *)
Fixpoint fill (l : gmap string nat) (kw : kwargs) (db_key : list slot)
    : result (list slot) :=
  match kw with
  | [] => Ok db_key
  | (key, v) :: rest =>
      match l !! key with
      | None => Raise KeyError
      | Some i =>
          if decide (i < length db_key) then fill l rest (<[i := v]> db_key)
          else Raise IndexError
      end
  end.

(** Passing a dictionary as keywords to a method whose one named parameter
    is [self], as [add] does when it calls [_make_db_key] with [key_dict]
    unpacked, and as a call of [query] does: a keyword named [self]
    collides with the receiver, and the call raises [TypeError] before the
    method runs. *)
Definition bind_keywords (kw : kwargs) : result kwargs :=
  if decide ("self" ∈ map fst kw) then Raise TypeError else Ok kw.

(** [_make_db_key]: the keywords are bound, then the body runs;
    [len(self.lut)] raises [TypeError] while the table is [None]. *)
Definition _make_db_key (kw : kwargs) : meth t (list slot) :=
  (let* kwargs := lift (bind_keywords kw) in
   let* l := gets lut in
   match l with
   | None => raise TypeError
   | Some l =>
       let* db_key := lift (fill l kwargs (replicate (size l) None)) in
       if decide (None ∈ db_key) then raise KeyError
       else ret db_key
   end)%meth.

(** [add]: [self.database[db_key] = value]. *)
Definition add (key_dict : kwargs) (v : V) : meth t unit :=
  (let* db_key := _make_db_key key_dict in
   modify (fun db => set_database (<[db_key := v]> (database db)) db))%meth.

(** [query]: the keywords are bound, then
    [return self.database[db_key]]. *)
Definition query (kw : kwargs) : meth t V :=
  (let* kwargs := lift (bind_keywords kw) in
   let* db_key := _make_db_key kwargs in
   let* d := gets database in
   match d !! db_key with
   | Some v => ret v
   | None => raise KeyError
   end)%meth.

(** A database as [__init__] leaves it before [_produce_database]. *)
Definition empty (velocity : float) : t :=
  {| velocity := velocity; lut := None; database := ∅ |}.

(** The index of a constructed database holds the names [keys]: it was
    built by [_create_index] from the keys of a dictionary, which are
    distinct, and none of them is [self] (the first [add] of the
    constructor raises otherwise, and no object is returned). *)
Definition indexed (keys : list string) (db : t) : Prop :=
  NoDup keys /\ lut db = Some (index_of keys) /\ "self" ∉ keys.

End Database.
Arguments t V : clear implicits.

(** The value a dictionary holds under [name]: a later binding overrides
    an earlier one. *)
Fixpoint kw_get (name : string) (kw : kwargs) : option slot :=
  match kw with
  | [] => None
  | (k, v) :: rest =>
      match kw_get name rest with
      | Some v' => Some v'
      | None => if decide (k = name) then Some v else None
      end
  end.

(** The supplied values arranged in index order. *)
Definition tuple_of (keys : list string) (kw : kwargs) : list slot :=
  map (fun name => default None (kw_get name kw)) keys.

(** The names a dictionary binds. *)
Definition names (kw : kwargs) : list string := map fst kw.

End FluxDatabase.

(** ** [unified.py] *)

(** A Python [dict] with string keys: assigning to a new key appends it,
    assigning to a key it holds replaces the value where the key stands;
    iteration follows this order. *)
Definition dict (A : Type) : Type := list (string * A).

Fixpoint dict_set {A} (k : string) (v : A) (d : dict A) : dict A :=
  match d with
  | [] => [(k, v)]
  | (k', v') :: rest =>
      if decide (k' = k) then (k, v) :: rest else (k', v') :: dict_set k v rest
  end.

Definition dict_values {A} (d : dict A) : list A := map snd d.

Module UnifiedModel.

(** The state vector, and the time grid. *)
Abbreviation vector := (list float).
(** A two-dimensional array as the list of its rows.  [raw_solution] has
    one row per differential equation and one column per time step. *)
Abbreviation ndarray := (list (list float)).

(** [a.T], and [np.array(rows).T] for rows of one length (rows of
    different lengths, which NumPy does not make a matrix of, are cut to
    the shortest here; the statements on trajectories assume rows of one
    length). *)
Fixpoint transpose (a : ndarray) : ndarray :=
  match a with
  | [] => []
  | r :: rest =>
      match rest with
      | [] => map (fun x => [x]) r
      | _ :: _ => zip_with cons r (transpose rest)
      end
  end.



(** A post-processing pipeline: one state vector in, one out.  A pipeline
    is taken to return; one that raises is outside this description. *)
Definition pipeline : Set := vector -> vector.

(** [scipy.integrate.solve_ivp(fun, t_span, y0, method='RK45', ...,
    **options)]: the arguments a call binds, and the result's fields the
    model reads. *)
Record ivp_call : Type := {
  ivp_fun : float -> vector -> result vector;
  t_span : float * float;
  y0 : vector;
  method : string;
  max_step : float
}.
Record OdeResult : Set := { t_ : vector; y_ : ndarray }.

(** The integration scheme [solve_ivp] runs when the caller passes no
    [method] keyword. *)
Definition default_method : string := "RK45".

(** How a call binds its arguments: [fun], [t_span] and [y0] are given, the
    keywords [method] and [max_step] may be; a keyword left out ([None])
    takes its default. *)
Definition bind_arguments (f : float -> vector -> result vector)
    (t_span : float * float) (y0 : vector) (method : option string)
    (max_step : option float) : ivp_call :=
  {| ivp_fun := f;
     t_span := t_span;
     y0 := y0;
     method := default default_method method;
     max_step := default infinity max_step |}.

(** A file of the model directory holds what [cloudpickle.dump] wrote, or
    nothing yet. *)
Inductive node (Pickle : Type) : Type :=
  | Dir
  | File (content : option Pickle).
Arguments Dir {Pickle}.
Arguments File {Pickle} content.

(** A path names a directory with or without a closing slash. *)
Fixpoint strip_slash (p : string) : string :=
  match p with
  | EmptyString => EmptyString
  | String c rest =>
      if Ascii.eqb c "/"%char && String.eqb rest "" then EmptyString
      else String c (strip_slash rest)
  end.

(** [s.split('/')[-1]]: what follows the last slash ([acc] is the text
    since the last one seen). *)
Fixpoint after_last_slash (s acc : string) : string :=
  match s with
  | EmptyString => acc
  | String c rest =>
      if Ascii.eqb c "/"%char then after_last_slash rest EmptyString
      else after_last_slash rest (acc +:+ String c EmptyString)
  end.

(** [s.split('.pkl')[0]]: what precedes the first [.pkl]. *)
Definition before_pkl (s : string) : string :=
  match String.index 0 ".pkl" s with
  | Some n => String.substring 0 n s
  | None => s
  end.

(** [f.split('.pkl')[0].split('/')[-1]] *)
Definition key_of_file (f : string) : string :=
  after_last_slash (before_pkl f) EmptyString.

Section Model.

(** [MechanicalModel] and [CouplingModel] are classes of other modules;
    the unified model only stores them and hands them to the governing
    equations. *)
Context {MechanicalModel CouplingModel : Type}.

(** [governing_equations(t, y, mechanical_model=..., electrical_model=...,
    coupling_model=...)] *)
Definition equations : Type :=
  float -> vector -> option MechanicalModel -> option ElectricalModel.t ->
  option CouplingModel -> result vector.

Record t : Type := {
  mechanical_model : option MechanicalModel;
  electrical_model : option ElectricalModel.t;
  coupling_model : option CouplingModel;
  governing_equations : option equations;
  raw_solution : option ndarray;
  post_processing_pipeline : dict pipeline;
  time : option vector
}.

Definition __init__ : t :=
  {| mechanical_model := None;
     electrical_model := None;
     coupling_model := None;
     governing_equations := None;
     raw_solution := None;
     post_processing_pipeline := [];
     time := None |}.

Definition with_raw_solution (a : option ndarray) (um : t) : t :=
  {| mechanical_model := mechanical_model um;
     electrical_model := electrical_model um;
     coupling_model := coupling_model um;
     governing_equations := governing_equations um;
     raw_solution := a;
     post_processing_pipeline := post_processing_pipeline um;
     time := time um |}.

Definition with_time (ts : option vector) (um : t) : t :=
  {| mechanical_model := mechanical_model um;
     electrical_model := electrical_model um;
     coupling_model := coupling_model um;
     governing_equations := governing_equations um;
     raw_solution := raw_solution um;
     post_processing_pipeline := post_processing_pipeline um;
     time := ts |}.


Definition set_mechanical_model (m : MechanicalModel) : meth t unit :=
  modify (fun um =>
    {| mechanical_model := Some m;
       electrical_model := electrical_model um;
       coupling_model := coupling_model um;
       governing_equations := governing_equations um;
       raw_solution := raw_solution um;
       post_processing_pipeline := post_processing_pipeline um;
       time := time um |}).

Definition set_electrical_model (e : ElectricalModel.t) : meth t unit :=
  modify (fun um =>
    {| mechanical_model := mechanical_model um;
       electrical_model := Some e;
       coupling_model := coupling_model um;
       governing_equations := governing_equations um;
       raw_solution := raw_solution um;
       post_processing_pipeline := post_processing_pipeline um;
       time := time um |}).

Definition set_coupling_model (c : CouplingModel) : meth t unit :=
  modify (fun um =>
    {| mechanical_model := mechanical_model um;
       electrical_model := electrical_model um;
       coupling_model := Some c;
       governing_equations := governing_equations um;
       raw_solution := raw_solution um;
       post_processing_pipeline := post_processing_pipeline um;
       time := time um |}).

Definition set_governing_equations (g : equations) : meth t unit :=
  modify (fun um =>
    {| mechanical_model := mechanical_model um;
       electrical_model := electrical_model um;
       coupling_model := coupling_model um;
       governing_equations := Some g;
       raw_solution := raw_solution um;
       post_processing_pipeline := post_processing_pipeline um;
       time := time um |}).


(** One round of the loop of [_apply_pipeline]:
    [self.raw_solution = np.array([pipeline(y) for y in self.raw_solution.T]).T];
    [None] has no [T]. *)
Definition apply_one (p : pipeline) : meth t unit :=
  (let* raw := gets raw_solution in
   match raw with
   | None => raise AttributeError
   | Some a =>
       modify (with_raw_solution (Some (transpose (map p (transpose a)))))
   end)%meth.

Fixpoint apply_each (ps : list pipeline) : meth t unit :=
  match ps with
  | [] => ret tt
  | p :: rest => (let* _u := apply_one p in apply_each rest)%meth
  end.

(** [_apply_pipeline]:
    [for _, pipeline in self.post_processing_pipeline.items(): ...] *)
Definition _apply_pipeline : meth t unit :=
  (let* d := gets post_processing_pipeline in
   apply_each (dict_values d))%meth.

Section Solver.

(** The integrator of SciPy. *)
Variable solve_ivp : ivp_call -> result OdeResult.

(** The call [solve] makes:
    [integrate.solve_ivp(fun=lambda t, y: self.governing_equations(t, y,
    **high_level_models), t_span=[t_start, t_end], y0=y0,
    max_step=t_max_step)].  No [method] keyword is passed. *)
Definition solve_call (t_start t_end : float) (y0 : vector)
    (t_max_step : float) (method : string) (um : t) : ivp_call :=
  let mech := mechanical_model um in
  let elec := electrical_model um in
  let coup := coupling_model um in
  bind_arguments
    (fun t y =>
       match governing_equations um with
       | Some g => g t y mech elec coup
       | None => Raise TypeError
       end)
    (t_start, t_end) y0 None (Some t_max_step).

(** [solve(t_start, t_end, y0, t_max_step=1e-5, method='RK45')] *)
Definition solve (t_start t_end : float) (y0 : vector)
    (t_max_step : float) (method : string) : meth t unit :=
  (let* call := gets (solve_call t_start t_end y0 t_max_step method) in
   let* psoln := lift (solve_ivp call) in
   let* _u := modify (with_time (Some (t_ psoln))) in
   let* _v := modify (with_raw_solution (Some (y_ psoln))) in
   _apply_pipeline)%meth.

End Solver.

Section Results.

(** [unified_model.utils.utils.parse_output_expression(t, raw_output,
    **kwargs)], of a module outside these sources: it gets the time
    grid, the trajectory and the named expressions. *)
Context {DataFrame : Type}.
Variable parse_output_expression :
  option vector -> option ndarray -> dict string -> result DataFrame.


End Results.

(** The values the attributes of a model hold. *)
Inductive pyobj : Type :=
  | ObjNone
  | ObjMechanical (m : MechanicalModel)
  | ObjElectrical (e : ElectricalModel.t)
  | ObjCoupling (c : CouplingModel)
  | ObjFunction (g : equations)
  | ObjArray (a : ndarray)
  | ObjVector (v : vector)
  | ObjPipelines (d : dict pipeline).

Definition obj_of {A} (f : A -> pyobj) (x : option A) : pyobj :=
  match x with Some a => f a | None => ObjNone end.

(** [self.__dict__]: the attributes in the order [__init__] creates
    them. *)
Definition __dict__ (um : t) : dict pyobj :=
  [ ("mechanical_model", obj_of ObjMechanical (mechanical_model um));
    ("electrical_model", obj_of ObjElectrical (electrical_model um));
    ("coupling_model", obj_of ObjCoupling (coupling_model um));
    ("governing_equations", obj_of ObjFunction (governing_equations um));
    ("raw_solution", obj_of ObjArray (raw_solution um));
    ("post_processing_pipeline", ObjPipelines (post_processing_pipeline um));
    ("time", obj_of ObjVector (time um)) ].

(** Calling [UnifiedModel] with keywords: [__init__(self)] takes no argument, so a
    call with a keyword raises [TypeError]. *)
Definition construct (kwargs : dict pyobj) : result t :=
  match kwargs with
  | [] => Ok __init__
  | _ :: _ => Raise TypeError
  end.

Section Persistence.

Context {Pickle : Type}.
(** [cloudpickle.dump] and [cloudpickle.load]. *)
Variable dump : pyobj -> result Pickle.
Variable load : Pickle -> result pyobj.
(** [glob.glob(pattern)] on a file system. *)
Variable glob : gmap string (node Pickle) -> string -> list string.

Definition filesystem : Type := gmap string (node Pickle).

(** [os.path.exists], [os.path.isdir], [os.makedirs], on a file system
    whose entries are named by the path strings the program uses, a closing
    slash apart.  [makedirs] is described where it has one directory to
    create in a directory that exists; for an empty path, or below a
    regular file, the library raises instead. *)
Definition path_exists (fs : filesystem) (path : string) : bool :=
  bool_decide (is_Some (fs !! strip_slash path)).
Definition isdir (fs : filesystem) (path : string) : bool :=
  match fs !! strip_slash path with
  | Some Dir => true
  | _ => false
  end.
Definition makedirs (path : string) : meth filesystem unit :=
  modify (fun fs : filesystem => <[strip_slash path := Dir]> fs).

(** [with open(component_path, 'wb') as f: cloudpickle.dump(val, f)]:
    the file is created before the value is pickled into it. *)
Definition write_component (component_path : string) (val : pyobj)
    : meth filesystem unit :=
  (let* fs := gets (fun fs : filesystem => fs) in
   match fs !! component_path with
   | Some Dir => raise IsADirectoryError
   | _ =>
       let* _u := modify (fun fs : filesystem =>
                    <[component_path := File None]> fs) in
       let* data := lift (dump val) in
       modify (fun fs : filesystem =>
         <[component_path := File (Some data)]> fs)
   end)%meth.

Fixpoint write_components (path : string) (items : dict pyobj)
    : meth filesystem unit :=
  match items with
  | [] => ret tt
  | (key, val) :: rest =>
      (let* _u := write_component (path +:+ key +:+ ".pkl") val in
       write_components path rest)%meth
  end.

(** [save_to_disk(self, path)] *)
Definition save_to_disk (um : t) (path : string) : meth filesystem unit :=
  (let* fs := gets (fun fs : filesystem => fs) in
   if negb (path_exists fs path) then
     let* _u := makedirs path in
     write_components path (__dict__ um)
   else raise FileExistsError)%meth.

(** [with open(file_, 'rb') as f: ... cloudpickle.load(f)] *)
Definition read_component (file_ : string) : meth filesystem pyobj :=
  (let* fs := gets (fun fs : filesystem => fs) in
   match fs !! file_ with
   | None => raise FileNotFoundError
   | Some Dir => raise IsADirectoryError
   | Some (File None) => raise UnpicklingError
   | Some (File (Some data)) => lift (load data)
   end)%meth.

(** [for key, file_ in zip(keys, files):
       unified_model.__dict__[key] = cloudpickle.load(f)] *)
Fixpoint read_components (items : list (string * string))
    (attrs : dict pyobj) : meth filesystem (dict pyobj) :=
  match items with
  | [] => ret attrs
  | (key, file_) :: rest =>
      (let* val := read_component file_ in
       read_components rest (dict_set key val attrs))%meth
  end.

(** [load_from_disk(path)]: a class method; the model it returns is
    given by its [__dict__]. *)
Definition load_from_disk (path : string)
    : meth filesystem (dict pyobj) :=
  (let* unified_model := lift (construct [("name", ObjNone)]) in
   let* fs := gets (fun fs : filesystem => fs) in
   if isdir fs path then
     let files := glob fs (path +:+ "*") in
     let keys := map key_of_file files in
     read_components (zip keys files) (__dict__ unified_model)
   else raise FileNotFoundError)%meth.

End Persistence.

End Model.
Arguments t : clear implicits.
Arguments equations : clear implicits.
Arguments pyobj : clear implicits.

End UnifiedModel.

(** ** [electrical_system/flux/utils.py]: building the database from the
    exported table *)

(** The methods of Python's [str] the header parser uses.  A string is the
    sequence of its characters, each a code point below 256. *)
Module PyStr.

(** [c.isspace()] *)
Definition isspace (c : ascii) : bool :=
  let n := nat_of_ascii c in
  (9 <=? n) && (n <=? 13) || (28 <=? n) && (n <=? 32)
  || (n =? 133) || (n =? 160).

(** The word read so far, if there is one. *)
Definition flush (word : string) : list string :=
  match word with
  | EmptyString => []
  | _ => [word]
  end.

(** [s.split()]: the words between runs of white space ([word] is the word
    being read). *)
Fixpoint split_from (s word : string) : list string :=
  match s with
  | EmptyString => flush word
  | String c rest =>
      if isspace c then flush word ++ split_from rest EmptyString
      else split_from rest (word +:+ String c EmptyString)
  end.

Definition split (s : string) : list string := split_from s EmptyString.

(** [c in s] for a character [c]. *)
Fixpoint contains (c : ascii) (s : string) : bool :=
  match s with
  | EmptyString => false
  | String x rest => Ascii.eqb x c || contains c rest
  end.

(** [s.split(sep)] for a separator of one character ([piece] is the piece
    being read). *)
Fixpoint split_on_from (sep : ascii) (s piece : string) : list string :=
  match s with
  | EmptyString => [piece]
  | String c rest =>
      if Ascii.eqb c sep then piece :: split_on_from sep rest EmptyString
      else split_on_from sep rest (piece +:+ String c EmptyString)
  end.

Definition split_on (sep : ascii) (s : string) : list string :=
  split_on_from sep s EmptyString.

(** [s.replace(c, '')] for a character [c]. *)
Fixpoint remove (c : ascii) (s : string) : string :=
  match s with
  | EmptyString => EmptyString
  | String x rest =>
      if Ascii.eqb x c then remove c rest else String x (remove c rest)
  end.

End PyStr.

(** [l[i]] on a list. *)
Definition item {A} (l : list A) (i : nat) : result A :=
  match l !! i with
  | Some x => Ok x
  | None => Raise IndexError
  end.

(** A list comprehension whose element expression may raise. *)
Fixpoint comprehension {A B} (f : A -> result B) (l : list A)
    : result (list B) :=
  match l with
  | [] => Ok []
  | x :: rest =>
      result_bind (f x) (fun y =>
      result_bind (comprehension f rest) (fun ys => Ok (y :: ys)))
  end.

Module FluxDatabaseInit.

(** The table [pd.read_csv] returns: the columns in the order of the file,
    each with its header and its values.  [read_csv] gives every column a
    header of its own. *)
Definition DataFrame : Type := list (string * list float).

(** [_extract_parameter_from_str(str_)] *)
Definition _extract_parameter_from_str (str_ : string) : result (dict string) :=
  let split_ := PyStr.split str_ in
  let unprocessed_params := List.filter (PyStr.contains "=") split_ in
  result_bind
    (comprehension (fun param => item (PyStr.split_on "=" param) 0)
       unprocessed_params)
    (fun param_names =>
  result_bind
    (comprehension
       (fun param =>
          result_bind (item (PyStr.split_on "=" param) 1)
            (fun v => Ok (PyStr.remove "'" v)))
       unprocessed_params)
    (fun param_values =>
  Ok (fold_left (fun param_dict nv => dict_set nv.1 nv.2 param_dict)
        (zip param_names param_values) []))).

(** A parameter dictionary passed as [key_dict]: the values are strings. *)
Definition as_kwargs (key_dict : dict string) : FluxDatabase.kwargs :=
  map (fun nv => (nv.1, Some (FluxDatabase.VStr nv.2))) key_dict.

(** The attributes of a [FluxDatabase]: [velocity], [lut] and [database]
    as in [FluxDatabase.t], and [raw_database], [time] and [z] ([None]
    while the attribute is not assigned). *)
Record t : Type := {
  raw_database : DataFrame;
  time : option (list float);
  z : option (list float);
  base : FluxDatabase.t (list float)
}.

Definition with_time (ts : list float) (self : t) : t :=
  {| raw_database := raw_database self;
     time := Some ts;
     z := z self;
     base := base self |}.

Definition with_z (zs : list float) (self : t) : t :=
  {| raw_database := raw_database self;
     time := time self;
     z := Some zs;
     base := base self |}.

Definition with_base (b : FluxDatabase.t (list float)) (self : t) : t :=
  {| raw_database := raw_database self;
     time := time self;
     z := z self;
     base := b |}.

(** A method of [FluxDatabase.t] run on the object. *)
Definition on_base {A} (c : meth (FluxDatabase.t (list float)) A) : meth t A :=
  fun self =>
    match c (base self) with
    | (r, b) => (r, with_base b self)
    end.

(** [self.raw_database[col].values] *)
Fixpoint column_values (raw : DataFrame) (col : string) : result (list float) :=
  match raw with
  | [] => Raise KeyError
  | (header, values) :: rest =>
      if decide (header = col) then Ok values else column_values rest col
  end.

(** The loop of [_produce_database]:
    [for col in self.raw_database.columns[1:]:
         key_dict = self._extract_parameter_from_str(col)
         self.add(key_dict, value=self.raw_database[col].values)] *)
Fixpoint add_columns (cols : list string) : meth t unit :=
  match cols with
  | [] => ret tt
  | col :: rest =>
      (let* key_dict := lift (_extract_parameter_from_str col) in
       let* raw := gets raw_database in
       let* values := lift (column_values raw col) in
       let* _u := on_base (FluxDatabase.add (as_kwargs key_dict) values) in
       add_columns rest)%meth
  end.

(** [_produce_database] *)
Definition _produce_database : meth t unit :=
  (let* raw := gets raw_database in
   let* first := lift (item raw 0) in
   let time := map (fun x => (x / 1000)%float) first.2 in
   let* _u := modify (with_time time) in
   let* velocity := gets (fun self => FluxDatabase.velocity (base self)) in
   let* _v := modify (with_z (map (fun x => (x * velocity)%float) time)) in
   let* header := lift (item (map fst raw) 1) in
   let* params := lift (_extract_parameter_from_str header) in
   let* _w := on_base (FluxDatabase._create_index (map fst params)) in
   add_columns (drop 1 (map fst raw)))%meth.

Section Constructor.

(** [pd.read_csv] *)
Variable read_csv : string -> result DataFrame.

(** [FluxDatabase(csv_database_path, fixed_velocity)]: the object, unless
    the constructor raises. *)
Definition __init__ (csv_database_path : string) (fixed_velocity : float)
    : result t :=
  result_bind (read_csv csv_database_path) (fun raw =>
    match
      _produce_database
        {| raw_database := raw;
           time := None;
           z := None;
           base := FluxDatabase.empty fixed_velocity |}
    with
    | (Ok _, self) => Ok self
    | (Raise e, _) => Raise e
    end).

End Constructor.

End FluxDatabaseInit.

(** ** Definitions the statements below compare the code with *)

(** The central difference quotient of [f] at [x] with the step [delta_x]. *)
Definition central_difference (f : float -> float) (x : float) : float :=
  ((f (x + delta_x) - f (x - delta_x)) / (2 * delta_x))%float.

(** The terminal current of a resistive voltage divider as the
    specification writes it: [emf * R_load / (R_load + R_coil) / R_load],
    evaluated left to right on Python floats. *)
Definition terminal_current (emf r_load r_coil : float) : result float :=
  result_bind (truediv (emf * r_load) (r_load + r_coil))%float
    (fun v_load => truediv v_load r_load).

Definition result_map {A B} (f : A -> B) (r : result A) : result B :=
  result_bind r (fun a => Ok (f a)).

(** A flux model interpolated over the positions [0 .. 1]: outside the data
    it answers [nan], as an interpolator without bounds error does. *)
Definition interpolated_flux (z : float) : float :=
  if ((0 <=? z) && (z <=? 1))%float then z else nan.

(** An electrical model around it, with the finite-difference gradient. *)
Definition edge_model : ElectricalModel.t :=
  {| ElectricalModel.name := "edge";
     ElectricalModel.flux_model := Some interpolated_flux;
     ElectricalModel.dflux_model := None;
     ElectricalModel.coil_resistance := infinity;
     ElectricalModel.load_model := None;
     ElectricalModel.flux_gradient := None;
     ElectricalModel.precompute_gradient := false |}.

(** The same model with a cached derivative switched on. *)
Definition cached_model : ElectricalModel.t :=
  {| ElectricalModel.name := "cached";
     ElectricalModel.flux_model := Some interpolated_flux;
     ElectricalModel.dflux_model := None;
     ElectricalModel.coil_resistance := infinity;
     ElectricalModel.load_model := None;
     ElectricalModel.flux_gradient := Some (fun z => (2 * z)%float);
     ElectricalModel.precompute_gradient := true |}.

(** The slots after the loop of [_make_db_key]: each indexed name's slot
    holds the value the dictionary gives the name, and keeps what it held
    when the dictionary does not bind the name. *)
Definition filled (keys : list string) (kw : FluxDatabase.kwargs)
    (db_key : list FluxDatabase.slot) : list FluxDatabase.slot :=
  zip_with (fun name old => default old (FluxDatabase.kw_get name kw))
    keys db_key.

(** A database of flux curves indexed by two coil parameters, as
    [_create_index] sets it up before the first curve is added. *)
Definition coil_keys : list string := ["winding_num_r"; "winding_num_z"].

Definition coil_db : FluxDatabase.t (list float) :=
  after (FluxDatabase._create_index coil_keys) (FluxDatabase.empty 0.5%float).

Definition flux_curve : list float := [0; 0.5; 1; 0.5; 0]%float.

(** Both parameters given. *)
Definition full_key : FluxDatabase.kwargs :=
  [ ("winding_num_z", Some (FluxDatabase.VStr "17"));
    ("winding_num_r", Some (FluxDatabase.VStr "15")) ].

(** Both parameters named, one of them with the value [None]. *)
Definition none_key : FluxDatabase.kwargs :=
  [ ("winding_num_r", Some (FluxDatabase.VStr "15"));
    ("winding_num_z", None) ].

(** One parameter left out. *)
Definition short_key : FluxDatabase.kwargs :=
  [ ("winding_num_r", Some (FluxDatabase.VStr "15")) ].












(** The parameters of [full_key] named in the other order, and a key for
    another coil. *)
Definition swapped_key : FluxDatabase.kwargs :=
  [ ("winding_num_r", Some (FluxDatabase.VStr "15"));
    ("winding_num_z", Some (FluxDatabase.VStr "17")) ].

Definition other_key : FluxDatabase.kwargs :=
  [ ("winding_num_r", Some (FluxDatabase.VStr "15"));
    ("winding_num_z", Some (FluxDatabase.VStr "33")) ].

Definition other_curve : list float := [0; 0.25; 0.5; 0.25; 0]%float.

(** The configuration calls of an electrical model, and a run of them. *)
Inductive setter : Type :=
  | SetFluxModel (flux dflux : float -> float)
  | SetCoilResistance (r : float)
  | SetLoadModel (l : ElectricalModel.Load).

Definition apply_setter (s : setter) : meth ElectricalModel.t unit :=
  match s with
  | SetFluxModel flux dflux => ElectricalModel.set_flux_model flux dflux
  | SetCoilResistance r => ElectricalModel.set_coil_resistance r
  | SetLoadModel l => ElectricalModel.set_load_model l
  end.

Fixpoint configure (ss : list setter) : meth ElectricalModel.t unit :=
  match ss with
  | [] => ret tt
  | s :: rest => (let* _u := apply_setter s in configure rest)%meth
  end.

(** A spring whose force law is defined below the position 3 only. *)
Definition bounded_spring : MagneticSpring.t :=
  {| MagneticSpring.model_parameters := Some [0.5%float];
     MagneticSpring.model_type := "iterative";
     MagneticSpring.model := fun args =>
       match args with
       | [z; k] => if (z <? 3)%float then Ok (k * z)%float
                  else Raise ValueError
       | _ => Raise TypeError
       end |}.

(** An integrator that gives up. *)
Definition failing_ivp (call : UnifiedModel.ivp_call)
    : result UnifiedModel.OdeResult :=
  Raise ValueError.

(** The file a model attribute is pickled into:
    [path + key + '.pkl']. *)
Definition component_path (path key : string) : string :=
  path +:+ key +:+ ".pkl".



(** What the header parser reads off one [name=value] token: the text
    before the first [=], and the text between the first and the second
    [=] without its apostrophes. *)
Definition parameter_name (param : string) : string :=
  default EmptyString (PyStr.split_on "=" param !! 0).

Definition parameter_value (param : string) : string :=
  PyStr.remove "'" (default EmptyString (PyStr.split_on "=" param !! 1)).

(** The parameters of a header: the tokens with an [=], in order, a
    repeated name keeping its first place and its last value. *)
Definition parameters (header : string) : dict string :=
  fold_left (fun param_dict nv => dict_set nv.1 nv.2 param_dict)
    (map (fun param => (parameter_name param, parameter_value param))
       (List.filter (PyStr.contains "=") (PyStr.split header)))
    [].

(** The keywords a header stands for, and its database key under the index
    [keys]. *)
Definition header_kwargs (header : string) : FluxDatabase.kwargs :=
  FluxDatabaseInit.as_kwargs (parameters header).

Definition header_key (keys : list string) (header : string)
    : list FluxDatabase.slot :=
  FluxDatabase.tuple_of keys (header_kwargs header).

(** A header names exactly the indexed parameters. *)
Definition fits (keys : list string) (header : string) : Prop :=
  forall name,
    name ∈ FluxDatabase.names (header_kwargs header) <-> name ∈ keys.

#[local] Existing Instance FluxDatabase.value_eq_dec.
#[local] Existing Instance FluxDatabase.value_countable.

(** The database after the columns [cols] were added one after the
    other. *)
Definition stored (keys : list string) (cols : FluxDatabaseInit.DataFrame)
    (d : gmap (list FluxDatabase.slot) (list float))
    : gmap (list FluxDatabase.slot) (list float) :=
  fold_left (fun d hv => <[header_key keys hv.1 := hv.2]> d) cols d.

(** An exported table: the time in milliseconds and the flux curves of two
    coils, the second header naming the parameters in the other order. *)
Definition coil_table : FluxDatabaseInit.DataFrame :=
  [ ("Time [ms]", [0; 1000; 2000]%float);
    ("Flux [Wb] - winding_num_r='15' winding_num_z='17'", [1; 2; 1]%float);
    ("Flux [Wb] - winding_num_z='33' winding_num_r='15'", [3; 4; 3]%float) ].

(** A table whose last column lacks a parameter, and one without data. *)
Definition ragged_table : FluxDatabaseInit.DataFrame :=
  [ ("Time [ms]", [0; 1000; 2000]%float);
    ("Flux [Wb] - winding_num_r='15' winding_num_z='17'", [1; 2; 1]%float);
    ("Flux [Wb] - winding_num_r='15'", [3; 4; 3]%float) ].

Definition time_only_table : FluxDatabaseInit.DataFrame :=
  [ ("Time [ms]", [0; 1000; 2000]%float) ].

(** A reader that finds the given table under every path. *)
Definition reads (table : FluxDatabaseInit.DataFrame) (path : string)
    : result FluxDatabaseInit.DataFrame :=
  Ok table.

(** A header as the field solver writes it: words separated by single
    blanks, the parameters as [name='value'] tokens. *)
Fixpoint join (words : list string) : string :=
  match words with
  | [] => EmptyString
  | w :: rest =>
      match rest with
      | [] => w
      | _ :: _ => w +:+ " " +:+ join rest
      end
  end.

Definition parameter_token (nv : string * string) : string :=
  nv.1 +:+ "='" +:+ nv.2 +:+ "'".

Fixpoint has_space (s : string) : bool :=
  match s with
  | EmptyString => false
  | String c rest => PyStr.isspace c || has_space rest
  end.

(** Text without white space and without [=]; text that moreover has no
    apostrophe. *)
Definition word (s : string) : bool :=
  negb (has_space s) && negb (PyStr.contains "=" s).

Definition quotable (s : string) : bool :=
  word s && negb (PyStr.contains "'" s).

(** The title words and the parameters of a flux column's header. *)
Definition flux_title : list string := ["Flux"; "[Wb]"; "-"].

Definition coil_parameters : list (string * string) :=
  [ ("winding_num_r", "15"); ("winding_num_z", "17") ].


(** The exception a call with ill-named keywords ends in: [TypeError] from
    the binding when a keyword is named [self], else [KeyError] from the
    body of [_make_db_key]. *)
Definition keyword_error (kw : FluxDatabase.kwargs) : exn :=
  if decide ("self" ∈ FluxDatabase.names kw) then TypeError else KeyError.

(** The parameters of [full_key] and a keyword named [self] besides. *)
Definition self_key : FluxDatabase.kwargs :=
  [ ("winding_num_z", Some (FluxDatabase.VStr "17"));
    ("winding_num_r", Some (FluxDatabase.VStr "15"));
    ("self", Some (FluxDatabase.VStr "1")) ].




(** A table whose first data header names a parameter [self]. *)
Definition self_table : FluxDatabaseInit.DataFrame :=
  [ ("Time [ms]", [0; 1000; 2000]%float);
    ("Flux [Wb] - self='1'", [1; 2; 1]%float) ].

(** The database built from [coil_table] for a magnet at 0.5 m/s. *)
Definition coil_database : FluxDatabaseInit.t :=
  match FluxDatabaseInit.__init__ (reads coil_table) "flux.csv" 0.5%float with
  | Ok self => self
  | Raise _ =>
      {| FluxDatabaseInit.raw_database := [];
         FluxDatabaseInit.time := None;
         FluxDatabaseInit.z := None;
         FluxDatabaseInit.base := FluxDatabase.empty 0.5%float |}
  end.

(** ** The method monad *)

Section Readonly.

Context {St : Type}.

Lemma readonly_ret {A} (a : A) : readonly (St := St) (ret a).
Proof. intros s. reflexivity. Qed.

Lemma readonly_raise {A} (e : exn) : readonly (St := St) (A := A) (raise e).
Proof. intros s. reflexivity. Qed.

Lemma readonly_gets {A} (f : St -> A) : readonly (gets f).
Proof. intros s. reflexivity. Qed.

Lemma readonly_lift {A} (r : result A) : readonly (St := St) (lift r).
Proof. intros s. reflexivity. Qed.

Lemma readonly_bind {A B} (c : meth St A) (k : A -> meth St B) :
  readonly c -> (forall a, readonly (k a)) -> readonly (bind c k).
Proof.
  intros Hc Hk s. unfold after, bind.
  specialize (Hc s). unfold after in Hc.
  destruct (c s) as [[a | e] s']; simpl in *; subst s'.
  - apply Hk.
  - reflexivity.
Qed.

(** A raising call stops the method: what follows never runs. *)
Lemma bind_raise {A B} (c : meth St A) (k : A -> meth St B) e s s' :
  c s = (Raise e, s') -> bind c k s = (Raise e, s').
Proof. intros H. unfold bind. rewrite H. reflexivity. Qed.

Lemma bind_ok {A B} (c : meth St A) (k : A -> meth St B) a s s' :
  c s = (Ok a, s') -> bind c k s = k a s'.
Proof. intros H. unfold bind. rewrite H. reflexivity. Qed.

End Readonly.

Ltac readonly_steps :=
  repeat first
    [ apply readonly_bind; [ | intros ? ]
    | apply readonly_ret | apply readonly_raise
    | apply readonly_gets | apply readonly_lift
    | match goal with
      | |- readonly (match ?x with _ => _ end) => destruct x
      | |- readonly (if ?b then _ else _) => destruct b
      end ].

(** ** Component models *)

Lemma damper_get_force_readonly v : readonly (ConstantDamper.get_force v).
Proof. unfold ConstantDamper.get_force. readonly_steps. Qed.

(** [ConstantDamper(c).get_force(v) == c*v]. *)
Lemma damper_get_force_value c v :
  outcome (ConstantDamper.get_force v) (ConstantDamper.__init__ c)
  = Ok (c * v)%float.
Proof. reflexivity. Qed.

Lemma spring_get_force_readonly z : readonly (MagneticSpring.get_force z).
Proof. unfold MagneticSpring.get_force. readonly_steps. Qed.

Lemma spring_get_force_array_readonly zs :
  readonly (MagneticSpring.get_force_array zs).
Proof.
  induction zs as [| z zs IH]; simpl.
  - apply readonly_ret.
  - apply readonly_bind; [ apply spring_get_force_readonly | intros f ].
    apply readonly_bind; [ exact IH | intros fs; apply readonly_ret ].
Qed.

Lemma get_flux_gradient_readonly y :
  readonly (ElectricalModel.get_flux_gradient y).
Proof.
  unfold ElectricalModel.get_flux_gradient.
  destruct y as [| x1 [| x2 [| x3 [| x4 [| x5 [| x6 y]]]]]];
    readonly_steps.
Qed.

Lemma get_emf_readonly p v : readonly (ElectricalModel.get_emf p v).
Proof. unfold ElectricalModel.get_emf. readonly_steps. Qed.

Lemma get_current_readonly emf : readonly (ElectricalModel.get_current emf).
Proof. unfold ElectricalModel.get_current. readonly_steps. Qed.

(** The setters, by contrast, do change the model. *)
Example set_coil_resistance_writes :
  after (ElectricalModel.set_coil_resistance 40%float) edge_model <> edge_model.
Proof.
  intros H. apply (f_equal ElectricalModel.coil_resistance) in H.
  simpl in H. apply (f_equal PrimFloat.is_infinity) in H.
  vm_compute in H. discriminate.
Qed.

(** C9: an evaluation call on a configured component model -- the damper's
    and the spring's [get_force], the electrical model's
    [get_flux_gradient], [get_emf] and [get_current] -- leaves the model
    object as it was: every attribute is unchanged, whatever the call
    returns or raises. *)
Theorem evaluation_never_mutates :
  (forall velocity (d : ConstantDamper.t),
      after (ConstantDamper.get_force velocity) d = d) /\
  (forall z (s : MagneticSpring.t),
      after (MagneticSpring.get_force z) s = s) /\
  (forall y (m : ElectricalModel.t),
      after (ElectricalModel.get_flux_gradient y) m = m) /\
  (forall pos vel (m : ElectricalModel.t),
      after (ElectricalModel.get_emf pos vel) m = m) /\
  (forall emf (m : ElectricalModel.t),
      after (ElectricalModel.get_current emf) m = m).
Proof.
  split; [ intros v d; apply damper_get_force_readonly | ].
  split; [ intros z s; apply spring_get_force_readonly | ].
  split; [ intros y m; apply get_flux_gradient_readonly | ].
  split; [ intros p v m; apply get_emf_readonly | ].
  intros emf m; apply get_current_readonly.
Qed.

(** C4: [get_current] returns the integer 0 when no load model is
    installed, for any emf; with a load of resistance [R_load] and the coil
    resistance [R_coil] it returns what
    [emf * R_load / (R_load + R_coil) / R_load] evaluates to. *)
Theorem get_current_voltage_divider :
  forall (m : ElectricalModel.t) (emf : float),
    outcome (ElectricalModel.get_current emf) m =
    match ElectricalModel.load_model m with
    | None => Ok (PyInt 0)
    | Some l =>
        result_map PyFloat
          (terminal_current emf (ElectricalModel.R l)
             (ElectricalModel.coil_resistance m))
    end.
Proof.
  intros m emf.
  unfold outcome, ElectricalModel.get_current, bind, gets, lift, ret.
  simpl. destruct (ElectricalModel.load_model m) as [l |]; [ | reflexivity ].
  unfold terminal_current, result_map, result_bind. simpl.
  destruct (truediv _ _) as [v_load | e]; [ | reflexivity ]. simpl.
  destruct (truediv v_load _); reflexivity.
Qed.

(** With the default coil resistance (infinite: an open circuit) the
    current through a 40 Ohm load is zero. *)
Example get_current_open_circuit :
  outcome (ElectricalModel.get_current 3%float)
    (after (ElectricalModel.set_load_model {| ElectricalModel.R := 40%float |})
       (ElectricalModel.__init__ "em"))
  = Ok (PyFloat 0%float).
Proof. reflexivity. Qed.

Lemma gradient_guard f x :
  _gradient f x =
  if PrimFloat.is_infinity (central_difference f x) then 0%float
  else central_difference f x.
Proof. reflexivity. Qed.

Lemma gradient_not_infinite f x : PrimFloat.is_infinity (_gradient f x) = false.
Proof.
  rewrite gradient_guard.
  destruct (PrimFloat.is_infinity (central_difference f x)) eqn:E.
  - reflexivity.
  - exact E.
Qed.

(** C3, as the code has it: on a five-element state vector, with the
    precomputed-gradient mode on [get_flux_gradient] returns the cached
    derivative at [x3 - x1]; otherwise it returns the central difference
    quotient of the flux model at [x3 - x1] with the step [1e-3], an infinite
    quotient replaced by exactly 0.0, so the value returned is never
    infinite.  (A quotient that is NaN is returned as it is.) *)
Theorem get_flux_gradient_spec :
  forall (m : ElectricalModel.t) (x1 x2 x3 x4 x5 : float),
    (forall g,
        ElectricalModel.precompute_gradient m = true ->
        ElectricalModel.flux_gradient m = Some g ->
        outcome (ElectricalModel.get_flux_gradient [x1; x2; x3; x4; x5]) m
        = Ok (g (x3 - x1)%float)) /\
    (forall f,
        ElectricalModel.precompute_gradient m = false ->
        ElectricalModel.flux_model m = Some f ->
        exists r,
          outcome (ElectricalModel.get_flux_gradient [x1; x2; x3; x4; x5]) m
          = Ok r /\
          r = (if PrimFloat.is_infinity (central_difference f (x3 - x1)%float)
               then 0%float
               else central_difference f (x3 - x1)%float) /\
          PrimFloat.is_infinity r = false).
Proof.
  intros m x1 x2 x3 x4 x5. split.
  - intros g Hpre Hg.
    unfold outcome, ElectricalModel.get_flux_gradient, bind, gets, lift.
    simpl. rewrite Hpre, Hg. reflexivity.
  - intros f Hpre Hf.
    exists (_gradient f (x3 - x1)%float). split; [ | split ].
    + unfold outcome, ElectricalModel.get_flux_gradient, bind, gets, ret.
      simpl. rewrite Hpre, Hf. reflexivity.
    + apply gradient_guard.
    + apply gradient_not_infinite.
Qed.

Lemma get_flux_gradient_spec_witness :
  outcome (ElectricalModel.get_flux_gradient [0; 0; 0.5; 0; 0]%float)
    cached_model = Ok 1%float /\
  exists r,
    outcome (ElectricalModel.get_flux_gradient [0; 0; 0.5; 0; 0]%float)
      edge_model = Ok r /\
    r = (if PrimFloat.is_infinity
              (central_difference interpolated_flux (0.5 - 0)%float)
         then 0%float
         else central_difference interpolated_flux (0.5 - 0)%float) /\
    PrimFloat.is_infinity r = false.
Proof.
  split.
  - exact (proj1 (get_flux_gradient_spec cached_model 0 0 0.5 0 0)
             (fun z => (2 * z)%float) eq_refl eq_refl).
  - exact (proj2 (get_flux_gradient_spec edge_model 0 0 0.5 0 0)
             interpolated_flux eq_refl eq_refl).
Defined.

(** C3 as stated fails: at the edge of the interpolated data the difference
    quotient is NaN (not finite), and [get_flux_gradient] returns that NaN,
    not 0.0. *)
Lemma get_flux_gradient_returns_nan :
  ElectricalModel.precompute_gradient edge_model = false /\
  PrimFloat.is_nan (central_difference interpolated_flux (0 - 0)%float) = true /\
  outcome (ElectricalModel.get_flux_gradient [0; 0; 0; 0; 0]%float) edge_model
  = Ok nan /\
  outcome (ElectricalModel.get_flux_gradient [0; 0; 0; 0; 0]%float) edge_model
  <> Ok 0%float.
Proof.
  split; [ reflexivity | ]. split; [ vm_compute; reflexivity | ].
  assert (E : outcome
                (ElectricalModel.get_flux_gradient [0; 0; 0; 0; 0]%float)
                edge_model = Ok nan) by (vm_compute; reflexivity).
  split; [ exact E | ].
  rewrite E. intros H.
  assert (H0 : PrimFloat.is_nan nan = PrimFloat.is_nan 0)
    by exact (f_equal
                (fun r => match r with Ok x => PrimFloat.is_nan x | _ => false end)
                H).
  vm_compute in H0. discriminate.
Qed.

(** ** The flux database: the index and the database key *)

Section FluxDatabaseFacts.

Import FluxDatabase.

Context {V : Type}.
Implicit Types (db : FluxDatabase.t V) (kw : kwargs) (keys : list string).
Implicit Types (l : gmap string nat) (name k : string).

Lemma enumerate_into_notin keys : forall i l k,
  k ∉ keys -> enumerate_into i keys l !! k = l !! k.
Proof.
  induction keys as [| k0 ks IH]; intros i l k Hk; simpl.
  - reflexivity.
  - apply not_elem_of_cons in Hk as [Hne Hk].
    rewrite IH by exact Hk. apply lookup_insert_ne. congruence.
Qed.

Lemma enumerate_into_at keys : forall i l j k,
  NoDup keys -> keys !! j = Some k ->
  enumerate_into i keys l !! k = Some (i + j).
Proof.
  induction keys as [| k0 ks IH]; intros i l j k Hnd Hj.
  - discriminate.
  - apply NoDup_cons in Hnd as [Hk0 Hnd]. destruct j as [| j]; simpl in *.
    + injection Hj as ->. rewrite enumerate_into_notin by exact Hk0.
      rewrite lookup_insert_eq. f_equal. lia.
    + rewrite (IH (S i) _ j k Hnd Hj). f_equal. lia.
Qed.

Lemma index_of_lookup keys k n :
  NoDup keys -> index_of keys !! k = Some n <-> keys !! n = Some k.
Proof.
  intros Hnd. unfold index_of. split.
  - intros H. destruct (decide (k ∈ keys)) as [Hin | Hout].
    + apply list_elem_of_lookup in Hin as [j Hj].
      rewrite (enumerate_into_at keys 0 ∅ j k Hnd Hj) in H.
      injection H as <-. exact Hj.
    + rewrite enumerate_into_notin in H by exact Hout.
      rewrite lookup_empty in H. discriminate.
  - intros H. apply (enumerate_into_at keys 0 ∅ n k Hnd H).
Qed.

Lemma index_of_unknown keys k : k ∉ keys -> index_of keys !! k = None.
Proof.
  intros H. unfold index_of. rewrite enumerate_into_notin by exact H.
  apply lookup_empty.
Qed.

Lemma size_enumerate_into keys : forall i l,
  NoDup keys -> (forall k, k ∈ keys -> l !! k = None) ->
  size (enumerate_into i keys l) = length keys + size l.
Proof.
  induction keys as [| k0 ks IH]; intros i l Hnd Hfresh; simpl.
  - reflexivity.
  - apply NoDup_cons in Hnd as [Hk0 Hnd].
    rewrite IH.
    + rewrite map_size_insert_None; [ lia | ].
      apply Hfresh. left.
    + exact Hnd.
    + intros k Hk. rewrite lookup_insert_ne.
      * apply Hfresh. right. exact Hk.
      * intros ->. contradiction.
Qed.

(** [len(self.lut)] is the number of indexed names. *)
Lemma size_index_of keys : NoDup keys -> size (index_of keys) = length keys.
Proof.
  intros Hnd. unfold index_of. rewrite size_enumerate_into.
  - rewrite map_size_empty. lia.
  - exact Hnd.
  - intros k _. apply lookup_empty.
Qed.

Lemma kw_get_None name kw : kw_get name kw = None <-> name ∉ names kw.
Proof.
  induction kw as [| [k v] rest IH]; simpl.
  - split; [ intros _; apply not_elem_of_nil | reflexivity ].
  - rewrite not_elem_of_cons, <- IH.
    destruct (kw_get name rest) as [v' |].
    + split; [ discriminate | intros [_ H]; exact H ].
    + destruct (decide (k = name)) as [-> | Hne].
      * split; [ discriminate | intros [H _]; contradiction ].
      * split; [ intros _; split; [ congruence | reflexivity ] | reflexivity ].
Qed.

Lemma kw_get_cons_ne name k v kw :
  k <> name -> kw_get name ((k, v) :: kw) = kw_get name kw.
Proof.
  intros Hne. simpl. destruct (kw_get name kw); [ reflexivity | ].
  destruct (decide (k = name)); [ contradiction | reflexivity ].
Qed.

Lemma kw_get_cons_eq name v kw :
  kw_get name ((name, v) :: kw) = Some (default v (kw_get name kw)).
Proof.
  simpl. destruct (kw_get name kw); [ reflexivity | ].
  destruct (decide (name = name)); [ reflexivity | contradiction ].
Qed.

(** A value a dictionary holds is one of its entries' values. *)
Lemma kw_get_Some name kw v :
  kw_get name kw = Some v -> (name, v) ∈ kw.
Proof.
  induction kw as [| [k v0] rest IH]; simpl.
  - discriminate.
  - destruct (kw_get name rest) as [v' |].
    + intros H. injection H as <-. right. apply IH. reflexivity.
    + destruct (decide (k = name)) as [-> | Hne]; [ | discriminate ].
      intros H. injection H as <-. left.
Qed.

Lemma filled_nil keys : forall db_key,
  length db_key = length keys -> filled keys [] db_key = db_key.
Proof.
  unfold filled.
  induction keys as [| k ks IH]; intros [| s db_key] Hlen;
    simpl in *; try discriminate; try reflexivity.
  f_equal. apply IH. lia.
Qed.

#[local] Arguments kw_get : simpl never.

Lemma filled_cons keys k v kw i : forall db_key,
  NoDup keys -> keys !! i = Some k -> length db_key = length keys ->
  filled keys kw (<[i := v]> db_key) = filled keys ((k, v) :: kw) db_key.
Proof.
  intros db_key Hnd Hi Hlen. unfold filled.
  apply list_eq. intros j. rewrite !lookup_zip_with.
  destruct (keys !! j) as [name |] eqn:Hj; simpl; [ | reflexivity ].
  destruct (decide (i = j)) as [-> | Hij].
  - assert (name = k) by congruence. subst name.
    rewrite list_lookup_insert_eq.
    + simpl. destruct (db_key !! j) as [old |] eqn:Hold; simpl.
      * rewrite kw_get_cons_eq. simpl.
        destruct (kw_get k kw); reflexivity.
      * apply lookup_ge_None in Hold. apply lookup_lt_Some in Hj. lia.
    + apply lookup_lt_Some in Hj. lia.
  - rewrite list_lookup_insert_ne by exact Hij.
    assert (Hne : k <> name).
    { intros ->. apply Hij. eapply NoDup_lookup; eauto. }
    destruct (db_key !! j) as [old |]; simpl; [ | reflexivity ].
    rewrite kw_get_cons_ne by exact Hne. reflexivity.
Qed.

Lemma fill_known keys kw : forall db_key,
  NoDup keys -> length db_key = length keys ->
  Forall (fun name => name ∈ keys) (names kw) ->
  fill (index_of keys) kw db_key = Ok (filled keys kw db_key).
Proof.
  induction kw as [| [k v] rest IH]; intros db_key Hnd Hlen Hall; simpl.
  - rewrite filled_nil by exact Hlen. reflexivity.
  - apply Forall_cons in Hall as [Hk Hall].
    apply list_elem_of_lookup in Hk as [i Hi].
    rewrite (proj2 (index_of_lookup keys k i Hnd) Hi).
    assert (Hlt : i < length db_key).
    { apply lookup_lt_Some in Hi. lia. }
    destruct (decide (i < length db_key)); [ | contradiction ].
    rewrite IH.
    + f_equal. apply filled_cons; assumption.
    + exact Hnd.
    + rewrite length_insert. exact Hlen.
    + exact Hall.
Qed.

Lemma fill_unknown keys kw : forall db_key,
  NoDup keys -> length db_key = length keys ->
  Exists (fun name => name ∉ keys) (names kw) ->
  fill (index_of keys) kw db_key = Raise KeyError.
Proof.
  induction kw as [| [k v] rest IH]; intros db_key Hnd Hlen Hex; simpl.
  - inversion Hex.
  - destruct (index_of keys !! k) as [i |] eqn:Hi; [ | reflexivity ].
    apply index_of_lookup in Hi; [ | exact Hnd ].
    assert (Hlt : i < length db_key).
    { apply lookup_lt_Some in Hi. lia. }
    destruct (decide (i < length db_key)); [ | contradiction ].
    apply IH.
    + exact Hnd.
    + rewrite length_insert. exact Hlen.
    + apply Exists_cons in Hex as [Hbad | Hex]; [ | exact Hex ].
      exfalso. apply Hbad. apply list_elem_of_lookup. eauto.
Qed.

Lemma filled_fresh keys kw :
  filled keys kw (replicate (length keys) None) = tuple_of keys kw.
Proof.
  unfold filled, tuple_of.
  induction keys as [| k ks IH]; simpl; [ reflexivity | ].
  f_equal. exact IH.
Qed.

(** [_make_db_key] when every keyword is an indexed name: the key is the
    tuple of the supplied values in index order, unless a slot is [None]. *)
Lemma bind_keywords_self kw :
  "self" ∈ names kw -> bind_keywords kw = Raise TypeError.
Proof.
  intros H. unfold bind_keywords.
  destruct (decide ("self" ∈ map fst kw)); [ reflexivity | contradiction ].
Qed.

Lemma bind_keywords_ok kw :
  "self" ∉ names kw -> bind_keywords kw = Ok kw.
Proof.
  intros H. unfold bind_keywords.
  destruct (decide ("self" ∈ map fst kw)); [ contradiction | reflexivity ].
Qed.

(** A keyword named [self] stops the call before the body runs. *)
Lemma make_db_key_self kw db :
  "self" ∈ names kw -> _make_db_key kw db = (Raise TypeError, db).
Proof.
  intros H. unfold _make_db_key, bind, lift.
  rewrite (bind_keywords_self kw H). reflexivity.
Qed.

Lemma known_names_not_self keys kw db :
  indexed keys db ->
  Forall (fun name => name ∈ keys) (names kw) -> "self" ∉ names kw.
Proof.
  intros (_ & _ & Hself) Hall Hin. apply Hself.
  rewrite Forall_forall in Hall. apply Hall. exact Hin.
Qed.

Lemma keyword_error_self kw : "self" ∈ names kw -> keyword_error kw = TypeError.
Proof.
  intros H. unfold keyword_error.
  destruct (decide ("self" ∈ names kw)); [ reflexivity | contradiction ].
Qed.

Lemma keyword_error_other kw : "self" ∉ names kw -> keyword_error kw = KeyError.
Proof.
  intros H. unfold keyword_error.
  destruct (decide ("self" ∈ names kw)); [ contradiction | reflexivity ].
Qed.

Lemma make_db_key_known keys kw db :
  indexed keys db ->
  Forall (fun name => name ∈ keys) (names kw) ->
  _make_db_key kw db =
  (if decide (None ∈ tuple_of keys kw) then Raise KeyError
   else Ok (tuple_of keys kw), db).
Proof.
  intros Hidx Hall.
  pose proof (known_names_not_self keys kw db Hidx Hall) as Hbound.
  destruct Hidx as (Hnd & Hlut & _).
  unfold _make_db_key, bind, gets, lift.
  rewrite (bind_keywords_ok kw Hbound). simpl. rewrite Hlut.
  rewrite size_index_of by exact Hnd.
  rewrite fill_known.
  - rewrite filled_fresh.
    destruct (decide (None ∈ tuple_of keys kw)); reflexivity.
  - exact Hnd.
  - apply length_replicate.
  - exact Hall.
Qed.

(** [_make_db_key] when a keyword is not an indexed name. *)
Lemma make_db_key_unknown keys kw db :
  indexed keys db ->
  Exists (fun name => name ∉ keys) (names kw) ->
  _make_db_key kw db = (Raise (keyword_error kw), db).
Proof.
  intros (Hnd & Hlut & _) Hex.
  destruct (decide ("self" ∈ names kw)) as [Hself | Hbound].
  { rewrite (keyword_error_self kw Hself). apply make_db_key_self.
    exact Hself. }
  rewrite (keyword_error_other kw Hbound).
  unfold _make_db_key, bind, gets, lift.
  rewrite (bind_keywords_ok kw Hbound). simpl. rewrite Hlut.
  rewrite size_index_of by exact Hnd.
  rewrite fill_unknown.
  - reflexivity.
  - exact Hnd.
  - apply length_replicate.
  - exact Hex.
Qed.

(** A name the dictionary does not bind leaves its slot [None]. *)
Lemma tuple_of_missing keys kw name :
  name ∈ keys -> name ∉ names kw -> None ∈ tuple_of keys kw.
Proof.
  intros Hin Hout. unfold tuple_of.
  apply list_elem_of_fmap. exists name. split; [ | exact Hin ].
  apply kw_get_None in Hout. rewrite Hout. reflexivity.
Qed.

(** When every indexed name is bound to a value other than [None], no slot
    is [None]. *)
Lemma tuple_of_complete keys kw :
  (forall name, name ∈ keys -> name ∈ names kw) ->
  Forall (fun p => p.2 <> None) kw ->
  None ∉ tuple_of keys kw.
Proof.
  intros Hall Hval Hin. unfold tuple_of in Hin.
  apply list_elem_of_fmap in Hin as (name & Heq & Hname).
  destruct (kw_get name kw) as [v |] eqn:Hget.
  - simpl in Heq. subst v. apply kw_get_Some in Hget.
    rewrite Forall_forall in Hval. apply (Hval _ Hget). reflexivity.
  - apply kw_get_None in Hget. apply Hget, Hall, Hname.
Qed.

(** Whatever the keywords, on an indexed database [_make_db_key] returns a
    key or raises [KeyError] ([TypeError] for a keyword named [self]), and
    leaves the database alone. *)
Lemma make_db_key_outcome keys kw db :
  indexed keys db ->
  _make_db_key kw db = (Raise (keyword_error kw), db) \/
  (_make_db_key kw db = (Ok (tuple_of keys kw), db) /\
   Forall (fun name => name ∈ keys) (names kw) /\
   None ∉ tuple_of keys kw).
Proof.
  intros Hidx.
  destruct (decide (Forall (fun name => name ∈ keys) (names kw)))
    as [Hall | Hnot].
  - rewrite (make_db_key_known keys kw db Hidx Hall).
    destruct (decide (None ∈ tuple_of keys kw)) as [Hin | Hout].
    + left.
      rewrite (keyword_error_other kw (known_names_not_self keys kw db Hidx Hall)).
      reflexivity.
    + right. repeat split; assumption.
  - left. apply (make_db_key_unknown keys); [ exact Hidx | ].
    apply not_Forall_Exists in Hnot; [ exact Hnot | ].
    intros name. apply _.
Qed.

End FluxDatabaseFacts.

(** ** The flux database: [add] and [query] *)

Section FluxDatabaseClaims.

Import FluxDatabase.

Context {V : Type}.
Implicit Types (db : FluxDatabase.t V) (kw : kwargs) (keys : list string).

Lemma indexed_set_database keys db d :
  indexed keys db -> indexed keys (set_database d db).
Proof. intros (Hnd & Hlut & Hself). repeat split; assumption. Qed.

Lemma add_raises kw v db e :
  _make_db_key kw db = (Raise e, db) -> add kw v db = (Raise e, db).
Proof. intros H. unfold add. apply bind_raise. exact H. Qed.

(** The keywords [query] has bound pass the binding of [_make_db_key] too:
    [query] is the key built from its keywords, then the look-up. *)
Lemma query_unfold kw db :
  query kw db =
  bind (_make_db_key kw)
    (fun db_key =>
       bind (gets database)
         (fun d =>
            match d !! db_key with
            | Some v => ret v
            | None => raise KeyError
            end)) db.
Proof.
  unfold query, bind at 1, lift at 1.
  destruct (decide ("self" ∈ names kw)) as [Hself | Hbound].
  - rewrite (bind_keywords_self kw Hself).
    rewrite (bind_raise _ _ _ _ _ (make_db_key_self kw db Hself)).
    reflexivity.
  - rewrite (bind_keywords_ok kw Hbound). reflexivity.
Qed.

Lemma query_raises kw db e :
  _make_db_key kw db = (Raise e, db) -> query kw db = (Raise e, db).
Proof. intros H. rewrite query_unfold. apply bind_raise. exact H. Qed.

(** C6, as the code has it: on a database whose index holds the names
    [keys], for a key dictionary that binds exactly these names, none of
    them to [None], and any value [v]: [add(k, v)] succeeds and a query with
    the same name-value pairs then returns [v]. *)
Theorem add_then_query :
  forall keys db kw (v : V),
    indexed keys db ->
    (forall name, name ∈ names kw <-> name ∈ keys) ->
    Forall (fun p => p.2 <> None) kw ->
    exists db',
      add kw v db = (Ok tt, db') /\ query kw db' = (Ok v, db').
Proof.
  intros keys db kw v Hidx Hnames Hval.
  assert (Hall : Forall (fun name => name ∈ keys) (names kw)).
  { apply Forall_forall. intros name Hin. apply Hnames. exact Hin. }
  assert (Hfull : None ∉ tuple_of keys kw).
  { apply tuple_of_complete; [ | exact Hval ].
    intros name Hin. apply Hnames. exact Hin. }
  assert (Hkey : forall db0, indexed keys db0 ->
            _make_db_key kw db0 = (Ok (tuple_of keys kw), db0)).
  { intros db0 H0. rewrite (make_db_key_known keys kw db0 H0 Hall).
    destruct (decide (None ∈ tuple_of keys kw)); [ contradiction | reflexivity ]. }
  exists (set_database (<[tuple_of keys kw := v]> (database db)) db). split.
  - unfold add. rewrite (bind_ok _ _ _ _ _ (Hkey db Hidx)). reflexivity.
  - rewrite query_unfold.
    rewrite (bind_ok _ _ _ _ _ (Hkey _ (indexed_set_database keys db _ Hidx))).
    unfold bind, gets. simpl. rewrite lookup_insert_eq. reflexivity.
Qed.

(** C7: on a database whose index holds the names [keys], a query that
    names exactly these, with a combination of values under which nothing
    is stored, raises [KeyError]; it returns no value. *)
Theorem query_absent_raises :
  forall keys db kw,
    indexed keys db ->
    (forall name, name ∈ names kw <-> name ∈ keys) ->
    database db !! tuple_of keys kw = None ->
    query kw db = (Raise KeyError, db).
Proof.
  intros keys db kw Hidx Hnames Habsent.
  assert (Hbound : "self" ∉ names kw).
  { intros Hin. apply Hnames in Hin. destruct Hidx as (_ & _ & Hself).
    contradiction. }
  destruct (make_db_key_outcome keys kw db Hidx) as [Hraise | (Hok & _ & _)].
  - apply query_raises. rewrite Hraise, (keyword_error_other kw Hbound).
    reflexivity.
  - rewrite query_unfold, (bind_ok _ _ _ _ _ Hok).
    unfold bind, gets. simpl. rewrite Habsent. reflexivity.
Qed.

(** C10, as the code has it: on a database whose index holds the names
    [keys], [add] and [query] called with keywords that miss an indexed
    name or carry a name that is not indexed raise while the key is built,
    before the stored mapping is looked at, and the database is left as it
    was.  The exception is [KeyError], unless a keyword is named [self]:
    then the call itself raises [TypeError]. *)
Theorem wrong_names_raise :
  forall keys db kw,
    indexed keys db ->
    (exists name, name ∈ keys /\ name ∉ names kw) \/
    (exists name, name ∈ names kw /\ name ∉ keys) ->
    _make_db_key kw db = (Raise (keyword_error kw), db) /\
    (forall v : V, add kw v db = (Raise (keyword_error kw), db)) /\
    query kw db = (Raise (keyword_error kw), db).
Proof.
  intros keys db kw Hidx Hwrong.
  assert (Hraise : _make_db_key kw db = (Raise (keyword_error kw), db)).
  { destruct (make_db_key_outcome keys kw db Hidx)
      as [Hraise | (_ & Hall & Hfull)]; [ exact Hraise | exfalso ].
    destruct Hwrong as [(name & Hin & Hout) | (name & Hin & Hout)].
    - apply Hfull. apply (tuple_of_missing keys kw name); assumption.
    - rewrite Forall_forall in Hall. apply Hout, Hall, Hin. }
  split; [ exact Hraise | ]. split.
  - intros v. apply add_raises. exact Hraise.
  - apply query_raises. exact Hraise.
Qed.

End FluxDatabaseClaims.

Lemma coil_db_indexed : FluxDatabase.indexed coil_keys coil_db.
Proof.
  split; [ | split ].
  - apply (bool_decide_unpack _). vm_compute. exact I.
  - reflexivity.
  - apply (bool_decide_unpack _). vm_compute. exact I.
Defined.

Lemma full_key_names :
  forall name, name ∈ FluxDatabase.names full_key <-> name ∈ coil_keys.
Proof.
  intros name. unfold full_key, coil_keys. simpl.
  rewrite !elem_of_cons, !elem_of_nil. tauto.
Defined.

Lemma add_then_query_witness :
  exists db',
    FluxDatabase.add full_key flux_curve coil_db = (Ok tt, db') /\
    FluxDatabase.query full_key db' = (Ok flux_curve, db').
Proof.
  apply (add_then_query coil_keys coil_db full_key flux_curve).
  - exact coil_db_indexed.
  - exact full_key_names.
  - unfold full_key. repeat constructor; simpl; discriminate.
Defined.

(** C6 as stated fails: a key dictionary that names exactly the indexed
    parameters and gives one of them the value [None] is refused by [add]
    with [KeyError], so nothing is stored under it. *)
Lemma add_none_value_raises :
  (forall name, name ∈ FluxDatabase.names none_key <-> name ∈ coil_keys) /\
  FluxDatabase.add none_key flux_curve coil_db = (Raise KeyError, coil_db).
Proof.
  split.
  - intros name. unfold none_key, coil_keys. simpl.
    rewrite !elem_of_cons, !elem_of_nil. tauto.
  - vm_compute. reflexivity.
Qed.

Lemma query_absent_raises_witness :
  FluxDatabase.query full_key coil_db = (Raise KeyError, coil_db).
Proof.
  apply (query_absent_raises coil_keys coil_db full_key).
  - exact coil_db_indexed.
  - exact full_key_names.
  - vm_compute. reflexivity.
Defined.

Lemma wrong_names_raise_witness :
  FluxDatabase._make_db_key short_key coil_db = (Raise KeyError, coil_db) /\
  (forall v, FluxDatabase.add short_key v coil_db = (Raise KeyError, coil_db)) /\
  FluxDatabase.query short_key coil_db = (Raise KeyError, coil_db).
Proof.
  apply (wrong_names_raise coil_keys coil_db short_key).
  - exact coil_db_indexed.
  - left. exists "winding_num_z". split.
    + unfold coil_keys. rewrite !elem_of_cons. tauto.
    + unfold short_key. simpl. rewrite list_elem_of_singleton. discriminate.
Defined.

(** C10 as stated fails: a keyword named [self] beside the indexed ones is
    an unknown name, and [query] and [add] raise [TypeError] for it, not
    [KeyError]. *)
Lemma self_keyword_raises_TypeError :
  (exists name,
      name ∈ FluxDatabase.names self_key /\ name ∉ coil_keys) /\
  FluxDatabase.query self_key coil_db = (Raise TypeError, coil_db) /\
  FluxDatabase.add self_key flux_curve coil_db = (Raise TypeError, coil_db) /\
  TypeError <> KeyError.
Proof.
  split; [ | split; [ | split ] ].
  - exists "self". split.
    + unfold self_key. simpl. rewrite !elem_of_cons. tauto.
    + apply (bool_decide_unpack _). vm_compute. exact I.
  - vm_compute. reflexivity.
  - vm_compute. reflexivity.
  - discriminate.
Qed.

(** ** Arrays: transposition *)

Section Transpose.

Import UnifiedModel.

Implicit Types (a : ndarray) (r : vector).










End Transpose.

(** ** The unified model: pipelines and [solve] *)

Section Pipelines.

Import UnifiedModel.

Context {MechanicalModel CouplingModel : Type}.

Implicit Types (um : UnifiedModel.t MechanicalModel CouplingModel).
Implicit Types (p : pipeline) (ps : list pipeline).

(** Assigning under a name the dictionary does not hold appends it. *)
Lemma dict_set_fresh {A} (k : string) (v : A) (m : dict A) :
  k ∉ map fst m -> dict_set k v m = m ++ [(k, v)].
Proof.
  induction m as [| [k' v'] m IH]; simpl; intros Hk.
  - reflexivity.
  - apply not_elem_of_cons in Hk as [Hne Hk].
    destruct (decide (k' = k)); [ congruence | ].
    rewrite IH by exact Hk. reflexivity.
Qed.

(** Assigning under a name the dictionary holds keeps the name's place. *)
Lemma dict_set_keys {A} (k : string) (v : A) (m : dict A) :
  k ∈ map fst m -> map fst (dict_set k v m) = map fst m.
Proof.
  induction m as [| [k' v'] m IH]; simpl; intros Hk.
  - apply elem_of_nil in Hk. contradiction.
  - destruct (decide (k' = k)) as [-> | Hne]; [ reflexivity | ].
    apply elem_of_cons in Hk as [-> | Hk]; [ contradiction | ].
    simpl. rewrite IH by exact Hk. reflexivity.
Qed.

Lemma with_raw_solution_id um a :
  raw_solution um = a -> with_raw_solution a um = um.
Proof. intros <-. destruct um. reflexivity. Qed.






Section Solve.

Variable solve_ivp : ivp_call -> result OdeResult.


End Solve.

End Pipelines.

Section SolveClaims.

Import UnifiedModel.

Context {MechanicalModel CouplingModel DataFrame : Type}.
Implicit Types (um : UnifiedModel.t MechanicalModel CouplingModel).




(** The arguments [solve] hands to the integrator: the time span, the
    initial state and the largest step are the caller's. *)
Lemma solve_call_arguments um t_start t_end y0 t_max_step (scheme : string) :
  t_span (solve_call t_start t_end y0 t_max_step scheme um) = (t_start, t_end)
  /\ UnifiedModel.y0 (solve_call t_start t_end y0 t_max_step scheme um) = y0
  /\ max_step (solve_call t_start t_end y0 t_max_step scheme um) = t_max_step.
Proof. repeat split. Qed.

(** C1 at the code: whatever [method] the caller names, the call of the
    integrator binds the integrator's default scheme, and [solve] does what
    it does for the default. *)
Theorem solve_ignores_method :
  forall (solve_ivp : ivp_call -> result OdeResult)
    um t_start t_end y0 t_max_step (scheme : string),
    method (solve_call t_start t_end y0 t_max_step scheme um) = "RK45" /\
    solve solve_ivp t_start t_end y0 t_max_step scheme um
    = solve solve_ivp t_start t_end y0 t_max_step "RK45" um.
Proof. intros. split; reflexivity. Qed.

Section PersistenceClaims.

Context {Pickle : Type}.
Variable dump : pyobj MechanicalModel CouplingModel -> result Pickle.
Variable load : Pickle -> result (pyobj MechanicalModel CouplingModel).
Variable glob : gmap string (node Pickle) -> string -> list string.

(** [load_from_disk] stops at its first statement: the constructor does not
    take the keyword it is called with. *)
Lemma load_from_disk_raises path (fs : gmap string (node Pickle)) :
  load_from_disk load glob path fs = (Raise TypeError, fs).
Proof. reflexivity. Qed.


(** C2 at the code: after a model was saved under [path], loading it from
    [path] raises [TypeError]; no model is returned. *)
Theorem load_after_save_raises :
  forall um path (fs : gmap string (node Pickle)),
    outcome (load_from_disk load glob path)
      (after (save_to_disk dump um path) fs)
    = Raise TypeError.
Proof. intros. reflexivity. Qed.

(** C8 at the code: where no directory exists, [load_from_disk] raises
    [TypeError], not [FileNotFoundError]. *)
Theorem load_missing_directory_raises :
  forall path,
    isdir (∅ : gmap string (node Pickle)) path = false /\
    outcome (load_from_disk load glob path) ∅ = Raise TypeError.
Proof. intros path. split; reflexivity. Qed.

End PersistenceClaims.

End SolveClaims.




(** ** The flux database: further properties of the index, [add] and
    [query] *)

Section FluxDatabaseMore.

Import FluxDatabase.

Context {V : Type}.
Implicit Types (db : FluxDatabase.t V) (kw : kwargs) (keys : list string).

(** The key depends on the index alone, and building it changes nothing. *)
Lemma make_db_key_lut kw db db' :
  lut db = lut db' ->
  _make_db_key kw db = (fst (_make_db_key kw db'), db).
Proof.
  intros H. unfold _make_db_key, bind, gets, lift, raise, ret. simpl.
  destruct (bind_keywords kw) as [kwargs | e]; [ | reflexivity ].
  rewrite H. destruct (lut db') as [l |]; [ | reflexivity ].
  destruct (fill l kwargs _) as [db_key | e]; [ | reflexivity ].
  destruct (decide (None ∈ db_key)); reflexivity.
Qed.

Lemma add_ok_inv keys kw v db db1 :
  indexed keys db ->
  add kw v db = (Ok tt, db1) ->
  _make_db_key kw db = (Ok (tuple_of keys kw), db) /\
  db1 = set_database (<[tuple_of keys kw := v]> (database db)) db.
Proof.
  intros Hidx Hadd.
  destruct (make_db_key_outcome keys kw db Hidx) as [Hraise | (Hok & _ & _)].
  - rewrite (add_raises kw v db _ Hraise) in Hadd. discriminate.
  - split; [ exact Hok | ].
    unfold add in Hadd. rewrite (bind_ok _ _ _ _ _ Hok) in Hadd.
    unfold modify in Hadd. injection Hadd as <-. reflexivity.
Qed.

(** The index is built once: [_create_index] fills the look-up table of a
    database that has none and leaves the stored curves alone, a further
    call raises [ValueError] and changes nothing, and neither [add] nor
    [query] touches the table afterwards. *)
Theorem index_built_once :
  forall db key_list key_list' kw (v : V),
    lut db = None ->
    exists db1,
      _create_index key_list db = (Ok tt, db1) /\
      lut db1 = Some (index_of key_list) /\
      database db1 = database db /\
      _create_index key_list' db1 = (Raise ValueError, db1) /\
      lut (after (add kw v) db1) = lut db1 /\
      after (query kw) db1 = db1.
Proof.
  intros db key_list key_list' kw v Hnone.
  exists (set_lut (index_of key_list) db).
  assert (Hq : readonly (query (V := V) kw)).
  { unfold query, _make_db_key. readonly_steps. }
  split; [ | split; [ reflexivity | split; [ reflexivity | split; [ reflexivity | split ] ] ] ].
  - unfold _create_index, bind, gets. simpl. rewrite Hnone. reflexivity.
  - unfold after, add, bind.
    destruct (_make_db_key kw _) as [[db_key | e] db2] eqn:E.
    + rewrite (make_db_key_lut kw _ _ eq_refl) in E.
      injection E as _ <-. reflexivity.
    + rewrite (make_db_key_lut kw _ _ eq_refl) in E.
      injection E as _ <-. reflexivity.
  - apply Hq.
Qed.

(** A value a dictionary with distinct names holds under a name. *)
Lemma kw_get_elem name kw v :
  NoDup (names kw) -> (name, v) ∈ kw -> kw_get name kw = Some v.
Proof.
  induction kw as [| [k v0] rest IH]; intros Hnd Hin.
  - apply elem_of_nil in Hin. contradiction.
  - simpl in Hnd. apply NoDup_cons in Hnd as [Hk Hnd].
    apply elem_of_cons in Hin as [Heq | Hin].
    + injection Heq as -> ->. simpl.
      apply kw_get_None in Hk. rewrite Hk.
      destruct (decide (k = k)); [ reflexivity | contradiction ].
    + simpl. rewrite (IH Hnd Hin). reflexivity.
Qed.

Lemma kw_get_Permutation name kw1 kw2 :
  kw1 ≡ₚ kw2 -> NoDup (names kw1) -> kw_get name kw1 = kw_get name kw2.
Proof.
  intros Hperm Hnd.
  assert (Hnd2 : NoDup (names kw2)).
  { unfold names in *. change (NoDup (fst <$> kw2)).
    rewrite <- Hperm. exact Hnd. }
  destruct (kw_get name kw1) as [v |] eqn:E1.
  - apply kw_get_Some in E1. rewrite Hperm in E1.
    symmetry. apply kw_get_elem; assumption.
  - apply kw_get_None in E1. symmetry. apply kw_get_None.
    unfold names in *. change (name ∉ fst <$> kw2).
    rewrite <- Hperm. exact E1.
Qed.

(** The order in which the keywords are written does not matter: two
    dictionaries with the same name-value pairs (names distinct) give the
    same database key, so [add] and [query] behave alike on them. *)
Theorem keyword_order_irrelevant :
  forall keys db kw1 kw2,
    indexed keys db ->
    kw1 ≡ₚ kw2 ->
    NoDup (names kw1) ->
    _make_db_key kw1 db = _make_db_key kw2 db /\
    query kw1 db = query kw2 db /\
    (forall v : V, add kw1 v db = add kw2 v db).
Proof.
  intros keys db kw1 kw2 Hidx Hperm Hnd.
  assert (Hkey : _make_db_key kw1 db = _make_db_key kw2 db).
  { assert (Htuple : tuple_of keys kw1 = tuple_of keys kw2).
    { unfold tuple_of. apply map_ext. intros name.
      rewrite (kw_get_Permutation name kw1 kw2 Hperm Hnd). reflexivity. }
    assert (Hnames : names kw1 ≡ₚ names kw2).
    { unfold names. change (fst <$> kw1 ≡ₚ fst <$> kw2).
      rewrite Hperm. reflexivity. }
    destruct (decide (Forall (fun name => name ∈ keys) (names kw1)))
      as [Hall | Hnot].
    - rewrite (make_db_key_known keys kw1 db Hidx Hall).
      rewrite Hnames in Hall.
      rewrite (make_db_key_known keys kw2 db Hidx Hall).
      rewrite Htuple. reflexivity.
    - apply not_Forall_Exists in Hnot; [ | intros name; apply _ ].
      rewrite (make_db_key_unknown keys kw1 db Hidx Hnot).
      rewrite Hnames in Hnot.
      rewrite (make_db_key_unknown keys kw2 db Hidx Hnot).
      assert (Herr : keyword_error kw1 = keyword_error kw2).
      { unfold keyword_error.
        destruct (decide ("self" ∈ names kw1)) as [H1 | H1];
          destruct (decide ("self" ∈ names kw2)) as [H2 | H2];
          try reflexivity; rewrite Hnames in H1; contradiction. }
      rewrite Herr. reflexivity. }
  split; [ exact Hkey | ]. split.
  - rewrite !query_unfold. unfold bind. rewrite Hkey. reflexivity.
  - intros v. unfold add, bind. rewrite Hkey. reflexivity.
Qed.

(** Adding under a key that is stored already replaces the value: after two
    [add]s with the same name-value pairs a query returns the second value,
    and the database holds one entry for the key. *)
Theorem add_replaces :
  forall keys db kw (v1 v2 : V) db1,
    indexed keys db ->
    add kw v1 db = (Ok tt, db1) ->
    exists db2,
      add kw v2 db1 = (Ok tt, db2) /\
      query kw db2 = (Ok v2, db2) /\
      database db2 = <[tuple_of keys kw := v2]> (database db).
Proof.
  intros keys db kw v1 v2 db1 Hidx Hadd.
  destruct (add_ok_inv keys kw v1 db db1 Hidx Hadd) as [Hkey Hdb1].
  assert (Hkey' : forall db0, lut db0 = lut db ->
            _make_db_key kw db0 = (Ok (tuple_of keys kw), db0)).
  { intros db0 H0. rewrite (make_db_key_lut kw db0 db H0), Hkey. reflexivity. }
  assert (Hlut : lut db1 = lut db) by (rewrite Hdb1; reflexivity).
  exists (set_database (<[tuple_of keys kw := v2]> (database db1)) db1).
  split; [ | split ].
  - unfold add. rewrite (bind_ok _ _ _ _ _ (Hkey' db1 Hlut)). reflexivity.
  - rewrite query_unfold.
    rewrite (bind_ok _ _ _ _ _ (Hkey' (set_database _ db1) Hlut)).
    unfold bind, gets. simpl. rewrite lookup_insert_eq. reflexivity.
  - rewrite Hdb1. simpl. apply insert_insert_eq.
Qed.

(** Adding under one key leaves the answers for every other key as they
    were: a query whose values, in index order, differ from the added key's
    returns or raises what it did before the [add]. *)
Theorem add_keeps_other_entries :
  forall keys db kw1 kw2 (v : V) db1,
    indexed keys db ->
    add kw1 v db = (Ok tt, db1) ->
    tuple_of keys kw2 <> tuple_of keys kw1 ->
    outcome (query kw2) db1 = outcome (query kw2) db.
Proof.
  intros keys db kw1 kw2 v db1 Hidx Hadd Hne.
  destruct (add_ok_inv keys kw1 v db db1 Hidx Hadd) as [_ Hdb1].
  assert (Hlut : lut db1 = lut db) by (rewrite Hdb1; reflexivity).
  unfold outcome.
  destruct (make_db_key_outcome keys kw2 db Hidx) as [Hraise | (Hok & _ & _)].
  - rewrite (query_raises kw2 db _ Hraise).
    rewrite (query_raises kw2 db1 (keyword_error kw2)); [ reflexivity | ].
    rewrite (make_db_key_lut kw2 db1 db Hlut), Hraise. reflexivity.
  - assert (Hok1 : _make_db_key kw2 db1 = (Ok (tuple_of keys kw2), db1))
      by (rewrite (make_db_key_lut kw2 db1 db Hlut), Hok; reflexivity).
    rewrite !query_unfold.
    rewrite (bind_ok _ _ _ _ _ Hok), (bind_ok _ _ _ _ _ Hok1).
    unfold bind, gets. simpl. rewrite Hdb1. simpl.
    rewrite lookup_insert_ne by congruence.
    destruct (database db !! tuple_of keys kw2); reflexivity.
Qed.

End FluxDatabaseMore.

Lemma index_built_once_witness :
  exists db1 : FluxDatabase.t (list float),
    FluxDatabase._create_index coil_keys (FluxDatabase.empty 0.5%float)
    = (Ok tt, db1) /\
    FluxDatabase.lut db1 = Some (FluxDatabase.index_of coil_keys) /\
    FluxDatabase.database db1 = FluxDatabase.database (FluxDatabase.empty 0.5%float) /\
    FluxDatabase._create_index ["winding_num_z"] db1 = (Raise ValueError, db1) /\
    FluxDatabase.lut (after (FluxDatabase.add full_key flux_curve) db1)
    = FluxDatabase.lut db1 /\
    after (FluxDatabase.query full_key) db1 = db1.
Proof.
  apply (index_built_once (FluxDatabase.empty 0.5%float) coil_keys
           ["winding_num_z"] full_key flux_curve).
  reflexivity.
Defined.

Lemma swapped_key_Permutation : full_key ≡ₚ swapped_key.
Proof. unfold full_key, swapped_key. apply perm_swap. Defined.

Lemma full_key_NoDup : NoDup (FluxDatabase.names full_key).
Proof. apply (bool_decide_unpack _). vm_compute. exact I. Defined.

Lemma keyword_order_irrelevant_witness :
  FluxDatabase._make_db_key full_key coil_db
  = FluxDatabase._make_db_key swapped_key coil_db /\
  FluxDatabase.query full_key coil_db = FluxDatabase.query swapped_key coil_db /\
  (forall v, FluxDatabase.add full_key v coil_db
             = FluxDatabase.add swapped_key v coil_db).
Proof.
  apply (keyword_order_irrelevant coil_keys coil_db full_key swapped_key).
  - exact coil_db_indexed.
  - exact swapped_key_Permutation.
  - exact full_key_NoDup.
Defined.

Lemma add_replaces_witness :
  exists db2,
    FluxDatabase.add full_key other_curve
      (after (FluxDatabase.add full_key flux_curve) coil_db) = (Ok tt, db2) /\
    FluxDatabase.query full_key db2 = (Ok other_curve, db2) /\
    FluxDatabase.database db2
    = <[FluxDatabase.tuple_of coil_keys full_key := other_curve]>
        (FluxDatabase.database coil_db).
Proof.
  apply (add_replaces coil_keys coil_db full_key flux_curve other_curve).
  - exact coil_db_indexed.
  - vm_compute. reflexivity.
Defined.

Lemma add_keeps_other_entries_witness :
  outcome (FluxDatabase.query other_key)
    (after (FluxDatabase.add full_key flux_curve) coil_db)
  = outcome (FluxDatabase.query other_key) coil_db.
Proof.
  apply (add_keeps_other_entries coil_keys coil_db full_key other_key
           flux_curve).
  - exact coil_db_indexed.
  - vm_compute. reflexivity.
  - vm_compute. intros H. discriminate H.
Defined.

(** ** Component models: further properties *)

Lemma binary_round_aux_opp prec emax s m e l :
  binary_round_aux prec emax (negb s) m e l
  = SFopp (binary_round_aux prec emax s m e l).
Proof.
  unfold binary_round_aux.
  destruct (shr_fexp prec emax m e l) as [mrs' e'].
  destruct (shr_fexp prec emax _ e' loc_Exact) as [mrs'' e''].
  destruct (shr_m mrs'') as [| p | p]; simpl; [ reflexivity | | reflexivity ].
  destruct (e'' <=? emax - prec)%Z; reflexivity.
Qed.

Lemma SFmul_opp_r prec emax x y :
  SFmul prec emax x (SFopp y) = SFopp (SFmul prec emax x y).
Proof.
  destruct x as [sx | sx | | sx mx ex]; destruct y as [sy | sy | | sy my ey];
    simpl; try reflexivity;
    try (destruct sx, sy; reflexivity).
  replace (xorb sx (negb sy)) with (negb (xorb sx sy))
    by (destruct sx, sy; reflexivity).
  apply binary_round_aux_opp.
Qed.

(** Multiplying by the opposite gives the opposite product, for all binary64
    numbers (zeros, infinities and NaN included). *)
Lemma mul_opp_r (x y : float) : (x * - y = - (x * y))%float.
Proof.
  apply Prim2SF_inj.
  rewrite mul_spec, !opp_spec, mul_spec. apply SFmul_opp_r.
Qed.

(** The damper force changes sign with the velocity: [get_force(-v)] is the
    opposite of [get_force(v)], for every coefficient and velocity. *)
Theorem damper_force_is_odd :
  forall (d : ConstantDamper.t) (v : float),
    outcome (ConstantDamper.get_force (- v)%float) d
    = result_map PrimFloat.opp (outcome (ConstantDamper.get_force v) d).
Proof.
  intros d v. unfold outcome, ConstantDamper.get_force, bind, gets, ret.
  simpl. rewrite mul_opp_r. reflexivity.
Qed.

Lemma spring_get_force_state z (s : MagneticSpring.t) :
  MagneticSpring.get_force z s = (outcome (MagneticSpring.get_force z) s, s).
Proof.
  pose proof (spring_get_force_readonly z s) as H.
  unfold after, outcome in *.
  destruct (MagneticSpring.get_force z s) as [r s']. simpl in *.
  subst s'. reflexivity.
Qed.

(** [get_force_array] returns a list exactly when [get_force] returns a
    value at every position of the input; the list then holds these values
    in the order of the input, so it is as long as the input. *)
Theorem get_force_array_elementwise :
  forall (s : MagneticSpring.t) (z_array fs : list float),
    outcome (MagneticSpring.get_force_array z_array) s = Ok fs <->
    Forall2 (fun z f => outcome (MagneticSpring.get_force z) s = Ok f)
      z_array fs.
Proof.
  intros s z_array. unfold outcome.
  induction z_array as [| z zs IH]; intros fs; simpl.
  - split.
    + intros H. injection H as <-. constructor.
    + intros H. inversion H. reflexivity.
  - unfold bind at 1. rewrite spring_get_force_state.
    destruct (outcome (MagneticSpring.get_force z) s) as [f | e] eqn:Ef.
    + unfold bind at 1.
      destruct (MagneticSpring.get_force_array zs s) as [[fs' | e'] s'] eqn:E;
        simpl in *.
      * split.
        -- intros H. injection H as <-. constructor; [ exact Ef | ].
           apply IH. reflexivity.
        -- intros H. inversion H as [| ? f0 ? fs0 Hf Hfs]; subst.
           apply IH in Hfs. unfold outcome in Ef. congruence.
      * split; [ discriminate | ].
        intros H. inversion H as [| ? f0 ? fs0 Hf Hfs]; subst.
        apply IH in Hfs. discriminate.
    + simpl. split; [ discriminate | ].
      intros H. inversion H. unfold outcome in Ef. congruence.
Qed.

(** The first position at which [get_force] raises decides what
    [get_force_array] raises. *)
Theorem get_force_array_first_error :
  forall (s : MagneticSpring.t) (done rest : list float) (z : float) fs e,
    Forall2 (fun z f => outcome (MagneticSpring.get_force z) s = Ok f)
      done fs ->
    outcome (MagneticSpring.get_force z) s = Raise e ->
    MagneticSpring.get_force_array (done ++ z :: rest) s = (Raise e, s).
Proof.
  intros s done rest z fs e Hdone Hz.
  induction Hdone as [| z0 f0 zs fs Hf _ IH]; simpl.
  - unfold bind. rewrite spring_get_force_state, Hz. reflexivity.
  - unfold bind at 1. rewrite spring_get_force_state, Hf.
    unfold bind at 1. rewrite IH. reflexivity.
Qed.

Lemma configure_cons s ss (m : ElectricalModel.t) :
  after (configure (s :: ss)) m = after (configure ss) (after (apply_setter s) m).
Proof. destruct s; reflexivity. Qed.

Lemma configure_invariant ss : forall m : ElectricalModel.t,
  ElectricalModel.precompute_gradient m = false ->
  ElectricalModel.flux_gradient m = None ->
  (ElectricalModel.flux_model m = None <-> ElectricalModel.dflux_model m = None) ->
  ElectricalModel.precompute_gradient (after (configure ss) m) = false /\
  ElectricalModel.flux_gradient (after (configure ss) m) = None /\
  (ElectricalModel.flux_model (after (configure ss) m) = None <->
   ElectricalModel.dflux_model (after (configure ss) m) = None).
Proof.
  induction ss as [| s ss IH]; intros m Hpre Hgrad Hboth.
  - repeat split; try assumption; apply Hboth.
  - rewrite configure_cons. apply IH; destruct s; simpl; try assumption.
    split; discriminate.
Qed.

(** However an electrical model is configured through its setters, the
    precomputed-gradient mode stays off and no cached derivative is held, so
    [get_flux_gradient] on a five-element state is the finite-difference
    gradient of the flux model at [x3 - x1], or [TypeError] while no flux
    model is set; and [get_emf] raises [AttributeError] in exactly the
    states in which no flux model is set. *)
Theorem configured_model_uses_finite_difference :
  forall (name : string) (ss : list setter) (x1 x2 x3 x4 x5 pos vel : float),
    ElectricalModel.precompute_gradient
      (after (configure ss) (ElectricalModel.__init__ name)) = false /\
    ElectricalModel.flux_gradient
      (after (configure ss) (ElectricalModel.__init__ name)) = None /\
    outcome (ElectricalModel.get_flux_gradient [x1; x2; x3; x4; x5])
      (after (configure ss) (ElectricalModel.__init__ name))
    = match ElectricalModel.flux_model
              (after (configure ss) (ElectricalModel.__init__ name)) with
      | Some f => Ok (_gradient f (x3 - x1)%float)
      | None => Raise TypeError
      end /\
    (outcome (ElectricalModel.get_emf pos vel)
       (after (configure ss) (ElectricalModel.__init__ name))
     = Raise AttributeError <->
     ElectricalModel.flux_model
       (after (configure ss) (ElectricalModel.__init__ name)) = None).
Proof.
  intros name ss x1 x2 x3 x4 x5 pos vel.
  destruct (configure_invariant ss (ElectricalModel.__init__ name)
              eq_refl eq_refl (conj (fun _ => eq_refl) (fun _ => eq_refl)))
    as (Hpre & Hgrad & Hboth).
  set (m := after (configure ss) (ElectricalModel.__init__ name)) in *.
  split; [ exact Hpre | ]. split; [ exact Hgrad | ]. split.
  - unfold outcome, ElectricalModel.get_flux_gradient, bind, gets, ret, raise.
    simpl. rewrite Hpre.
    destruct (ElectricalModel.flux_model m); reflexivity.
  - rewrite Hboth.
    unfold outcome, ElectricalModel.get_emf, bind, gets, ret, raise. simpl.
    destruct (ElectricalModel.dflux_model m); simpl.
    + split; discriminate.
    + split; reflexivity.
Qed.

Lemma get_force_array_first_error_witness :
  MagneticSpring.get_force_array ([1; 2] ++ 3 :: [4])%float bounded_spring
  = (Raise ValueError, bounded_spring).
Proof.
  apply (get_force_array_first_error bounded_spring [1; 2]%float [4]%float
           3%float [0.5; 1]%float ValueError).
  - repeat constructor.
  - reflexivity.
Defined.

(** ** The unified model: further properties of [solve] and
    [save_to_disk] *)

Section SolveMore.

Import UnifiedModel.

Context {MechanicalModel CouplingModel : Type}.
Implicit Types (um : UnifiedModel.t MechanicalModel CouplingModel).
Implicit Types (p : pipeline) (ps : list pipeline).

(** With a trajectory in place the loop of [_apply_pipeline] cannot raise. *)
Lemma apply_each_total ps : forall um a,
  raw_solution um = Some a ->
  apply_each ps um =
  (Ok tt,
   with_raw_solution
     (Some (fold_left (fun a p => transpose (map p (transpose a))) ps a)) um).
Proof.
  induction ps as [| p ps IH]; intros um a Hraw; simpl.
  - unfold ret. rewrite with_raw_solution_id by exact Hraw. reflexivity.
  - unfold bind at 1, apply_one, bind, gets, modify. simpl. rewrite Hraw.
    rewrite (IH (with_raw_solution (Some (transpose (map p (transpose a)))) um)
               (transpose (map p (transpose a))) eq_refl).
    reflexivity.
Qed.

(** [solve] starts from the sub-models and the equations alone.  When the
    integrator returns, [solve] ends in the same way and leaves the same
    model whether or not the model held results of an earlier run, so
    pipelines never act on an old trajectory, and the time grid stored is
    the integrator's; when the integrator raises, [solve] raises the same
    exception and the model keeps its earlier results. *)
Theorem solve_replaces_earlier_results :
  forall (solve_ivp : ivp_call -> result OdeResult) um
    (a : option ndarray) (ts : option vector)
    t_start t_end y0 t_max_step (scheme : string),
    match solve_ivp (solve_call t_start t_end y0 t_max_step scheme um) with
    | Ok psoln =>
        solve solve_ivp t_start t_end y0 t_max_step scheme
          (with_raw_solution a (with_time ts um))
        = solve solve_ivp t_start t_end y0 t_max_step scheme um /\
        time (after (solve solve_ivp t_start t_end y0 t_max_step scheme) um)
        = Some (t_ psoln)
    | Raise e =>
        solve solve_ivp t_start t_end y0 t_max_step scheme
          (with_raw_solution a (with_time ts um))
        = (Raise e, with_raw_solution a (with_time ts um))
    end.
Proof.
  intros solve_ivp um a ts t_start t_end y0 t_max_step scheme.
  destruct (solve_ivp (solve_call t_start t_end y0 t_max_step scheme um))
    as [psoln | e] eqn:E.
  - assert (Hsolve : forall um0 : UnifiedModel.t MechanicalModel CouplingModel,
              solve_ivp (solve_call t_start t_end y0 t_max_step scheme um0)
              = Ok psoln ->
              solve solve_ivp t_start t_end y0 t_max_step scheme um0 =
              (Ok tt,
               with_raw_solution
                 (Some (fold_left
                          (fun a p => transpose (map p (transpose a)))
                          (dict_values (post_processing_pipeline um0))
                          (y_ psoln)))
                 (with_time (Some (t_ psoln)) um0))).
    { intros um0 H0.
      unfold solve, bind at 1, gets at 1. simpl.
      unfold bind at 1, lift. rewrite H0.
      unfold bind at 1, modify at 1. unfold bind at 1, modify at 1.
      unfold _apply_pipeline, bind, gets. simpl.
      rewrite (apply_each_total _
                 (with_raw_solution (Some (y_ psoln))
                    (with_time (Some (t_ psoln)) um0))
                 (y_ psoln) eq_refl).
      reflexivity. }
    rewrite (Hsolve um E).
    rewrite (Hsolve (with_raw_solution a (with_time ts um)) E).
    unfold after. rewrite (Hsolve um E). simpl.
    split; reflexivity.
  - unfold solve, bind at 1, gets at 1. simpl.
    unfold bind at 1, lift.
    change (solve_call t_start t_end y0 t_max_step scheme
              (with_raw_solution a (with_time ts um)))
      with (solve_call t_start t_end y0 t_max_step scheme um).
    rewrite E. reflexivity.
Qed.

Section SaveMore.

Context {Pickle : Type}.
Variable dump : pyobj MechanicalModel CouplingModel -> result Pickle.
Implicit Types (fs : gmap string (node Pickle)).




End SaveMore.

End SolveMore.


Section SaveWrites.

Import UnifiedModel.

Context {MechanicalModel CouplingModel Pickle : Type}.
Variable dump : pyobj MechanicalModel CouplingModel -> result Pickle.
(** What the pickler returns where it succeeds. *)
Variable pickled : pyobj MechanicalModel CouplingModel -> Pickle.
Implicit Types (um : UnifiedModel.t MechanicalModel CouplingModel).
Implicit Types (fs : gmap string (node Pickle)).
Implicit Types (items : dict (pyobj MechanicalModel CouplingModel)).







End SaveWrites.


(** ** The flux database: parsing headers and building the database *)

Section HeaderParser.

Lemma comprehension_total {A B} (f : A -> result B) (g : A -> B) (l : list A) :
  (forall x, x ∈ l -> f x = Ok (g x)) -> comprehension f l = Ok (map g l).
Proof.
  induction l as [| x l IH]; intros H; simpl.
  - reflexivity.
  - rewrite (H x) by left. simpl.
    rewrite IH by (intros y Hy; apply H; right; exact Hy). reflexivity.
Qed.

Lemma split_on_from_nonempty sep s : forall piece,
  1 <= length (PyStr.split_on_from sep s piece).
Proof.
  induction s as [| c s IH]; intros piece; simpl.
  - lia.
  - destruct (Ascii.eqb c sep); simpl; [ lia | apply IH ].
Qed.

(** A string that holds the separator splits into two pieces at least. *)
Lemma split_on_from_two sep s : forall piece,
  PyStr.contains sep s = true ->
  2 <= length (PyStr.split_on_from sep s piece).
Proof.
  induction s as [| c s IH]; intros piece H; simpl in *.
  - discriminate.
  - destruct (Ascii.eqb c sep); simpl in *.
    + pose proof (split_on_from_nonempty sep s EmptyString). lia.
    + apply IH. exact H.
Qed.

Lemma item_lookup {A} (l : list A) i (x : A) :
  i < length l -> item l i = Ok (default x (l !! i)).
Proof.
  intros H. unfold item. destruct (l !! i) eqn:E; [ reflexivity | ].
  apply lookup_ge_None in E. lia.
Qed.

Lemma zip_map_map {A B C} (f : A -> B) (g : A -> C) (l : list A) :
  zip (map f l) (map g l) = map (fun x => (f x, g x)) l.
Proof. induction l as [| x l IH]; simpl; [ | rewrite IH ]; reflexivity. Qed.

(** The parser never raises: the tokens it indexes hold an [=]. *)
Lemma extract_parameters header :
  FluxDatabaseInit._extract_parameter_from_str header = Ok (parameters header).
Proof.
  unfold FluxDatabaseInit._extract_parameter_from_str, parameters.
  set (toks := List.filter (PyStr.contains "=") (PyStr.split header)).
  assert (Htok : forall p, p ∈ toks ->
            2 <= length (PyStr.split_on "=" p)).
  { intros p Hp. apply split_on_from_two.
    apply list_elem_of_In, filter_In in Hp. apply Hp. }
  rewrite (comprehension_total _ parameter_name).
  - simpl. rewrite (comprehension_total _ parameter_value).
    + simpl. rewrite zip_map_map. reflexivity.
    + intros p Hp. unfold parameter_value.
      rewrite (item_lookup _ 1 EmptyString) by (specialize (Htok p Hp); lia).
      reflexivity.
  - intros p Hp. unfold parameter_name.
    apply item_lookup. specialize (Htok p Hp). lia.
Qed.

Lemma dict_set_NoDup {A} (k : string) (v : A) (m : dict A) :
  NoDup (map fst m) -> NoDup (map fst (dict_set k v m)).
Proof.
  destruct (decide (k ∈ map fst m)) as [Hin | Hout]; intros Hnd.
  - assert (E : map fst (dict_set k v m) = map fst m); [ | rewrite E; exact Hnd ].
    clear Hnd. induction m as [| [k' v'] m IH]; simpl in *.
    + apply elem_of_nil in Hin. contradiction.
    + destruct (decide (k' = k)) as [-> | Hne]; [ reflexivity | ].
      apply elem_of_cons in Hin as [-> | Hin]; [ contradiction | ].
      simpl. rewrite IH by exact Hin. reflexivity.
  - assert (E : dict_set k v m = m ++ [(k, v)]).
    { clear Hnd. induction m as [| [k' v'] m IH]; simpl in *.
      - reflexivity.
      - apply not_elem_of_cons in Hout as [Hne Hout].
        destruct (decide (k' = k)); [ congruence | ].
        rewrite IH by exact Hout. reflexivity. }
    rewrite E, map_app. simpl. apply NoDup_app. split; [ exact Hnd | ].
    split.
    + intros x Hx Hk. apply list_elem_of_singleton in Hk. subst x.
      contradiction.
    + apply NoDup_singleton.
Qed.

Lemma fold_dict_set_NoDup {A} (l : list (string * A)) : forall m : dict A,
  NoDup (map fst m) ->
  NoDup (map fst (fold_left (fun d nv => dict_set nv.1 nv.2 d) l m)).
Proof.
  induction l as [| [k v] l IH]; intros m Hm; simpl.
  - exact Hm.
  - apply IH. apply dict_set_NoDup. exact Hm.
Qed.

(** The names of a header's parameters are distinct. *)
Lemma parameters_NoDup header : NoDup (map fst (parameters header)).
Proof. unfold parameters. apply fold_dict_set_NoDup. constructor. Qed.

Lemma as_kwargs_names d :
  FluxDatabase.names (FluxDatabaseInit.as_kwargs d) = map fst d.
Proof.
  unfold FluxDatabase.names, FluxDatabaseInit.as_kwargs.
  rewrite map_map. reflexivity.
Qed.

Lemma as_kwargs_values d :
  Forall (fun p : string * FluxDatabase.slot => p.2 <> None)
    (FluxDatabaseInit.as_kwargs d).
Proof.
  unfold FluxDatabaseInit.as_kwargs. apply Forall_map.
  apply Forall_forall. intros nv _. discriminate.
Qed.

End HeaderParser.

Section DatabaseConstruction.

Import FluxDatabase.

Implicit Types (db : FluxDatabase.t (list float)) (kw : kwargs).
Implicit Types (keys : list string) (self : FluxDatabaseInit.t).
Implicit Types (cols : FluxDatabaseInit.DataFrame).

Lemma add_stores keys kw (v : list float) db :
  indexed keys db ->
  Forall (fun name => name ∈ keys) (names kw) ->
  None ∉ tuple_of keys kw ->
  add kw v db =
  (Ok tt, set_database (<[tuple_of keys kw := v]> (database db)) db).
Proof.
  intros Hidx Hall Hfull. unfold add.
  erewrite bind_ok; [ reflexivity | ].
  rewrite (make_db_key_known keys kw db Hidx Hall).
  destruct (decide (None ∈ tuple_of keys kw)); [ contradiction | reflexivity ].
Qed.

Lemma query_finds keys kw (v : list float) db :
  indexed keys db ->
  Forall (fun name => name ∈ keys) (names kw) ->
  None ∉ tuple_of keys kw ->
  database db !! tuple_of keys kw = Some v ->
  query kw db = (Ok v, db).
Proof.
  intros Hidx Hall Hfull Hv. rewrite query_unfold.
  erewrite bind_ok.
  - unfold bind, gets. simpl. rewrite Hv. reflexivity.
  - rewrite (make_db_key_known keys kw db Hidx Hall).
    destruct (decide (None ∈ tuple_of keys kw)); [ contradiction | reflexivity ].
Qed.

(** Keywords that miss an indexed name or carry another one are refused
    while the key is built. *)
Lemma make_db_key_wrong_names keys kw db :
  indexed keys db ->
  (exists name, name ∈ keys /\ name ∉ names kw) \/
  (exists name, name ∈ names kw /\ name ∉ keys) ->
  _make_db_key kw db = (Raise (keyword_error kw), db).
Proof.
  intros Hidx Hwrong.
  destruct (make_db_key_outcome keys kw db Hidx)
    as [Hraise | (_ & Hall & Hfull)]; [ exact Hraise | exfalso ].
  destruct Hwrong as [(name & Hin & Hout) | (name & Hin & Hout)].
  - apply Hfull. apply (tuple_of_missing keys kw name); assumption.
  - rewrite Forall_forall in Hall. apply Hout, Hall, Hin.
Qed.

Lemma fits_known keys header :
  fits keys header ->
  Forall (fun name => name ∈ keys) (names (header_kwargs header)).
Proof. intros H. apply Forall_forall. intros name Hin. apply H. exact Hin. Qed.

Lemma fits_full keys header :
  fits keys header -> None ∉ header_key keys header.
Proof.
  intros H. apply tuple_of_complete.
  - intros name Hin. apply H. exact Hin.
  - apply as_kwargs_values.
Qed.

Lemma column_values_elem cols header values :
  NoDup (map fst cols) -> (header, values) ∈ cols ->
  FluxDatabaseInit.column_values cols header = Ok values.
Proof.
  induction cols as [| [h v] cols IH]; intros Hnd Hin.
  - apply elem_of_nil in Hin. contradiction.
  - simpl in Hnd. apply NoDup_cons in Hnd as [Hh Hnd]. simpl.
    apply elem_of_cons in Hin as [Heq | Hin].
    + injection Heq as -> ->.
      destruct (decide (h = h)); [ reflexivity | contradiction ].
    + destruct (decide (h = header)) as [-> | Hne].
      * exfalso. apply Hh. apply list_elem_of_fmap.
        exists (header, values). split; [ reflexivity | exact Hin ].
      * apply IH; assumption.
Qed.

Lemma indexed_with_database keys db d :
  indexed keys db -> indexed keys (set_database d db).
Proof. intros (Hnd & Hlut & Hself). repeat split; assumption. Qed.

(** The loop over the data columns, when every header fits the index. *)
Lemma add_columns_stores keys cols : forall self,
  indexed keys (FluxDatabaseInit.base self) ->
  (forall hv, hv ∈ cols ->
     FluxDatabaseInit.column_values (FluxDatabaseInit.raw_database self) hv.1
     = Ok hv.2) ->
  (forall hv, hv ∈ cols -> fits keys hv.1) ->
  FluxDatabaseInit.add_columns (map fst cols) self =
  (Ok tt,
   FluxDatabaseInit.with_base
     (set_database
        (stored keys cols (database (FluxDatabaseInit.base self)))
        (FluxDatabaseInit.base self))
     self).
Proof.
  induction cols as [| [h v] cols IH]; intros self Hidx Hvals Hfit.
  - simpl. unfold ret, stored. simpl.
    destruct self as [raw ts zs b]. destruct b. reflexivity.
  - simpl. unfold bind at 1, lift. rewrite extract_parameters.
    unfold bind at 1, gets. unfold bind at 1, lift.
    pose proof (Hvals (h, v) ltac:(left)) as Hv. simpl in Hv.
    rewrite Hv. simpl.
    unfold bind at 1, FluxDatabaseInit.on_base.
    fold (header_kwargs h).
    rewrite (add_stores keys (header_kwargs h) v _ Hidx
               (fits_known keys h (Hfit (h, v) ltac:(left)))
               (fits_full keys h (Hfit (h, v) ltac:(left)))).
    rewrite IH.
    + reflexivity.
    + simpl. apply indexed_with_database. exact Hidx.
    + intros hv Hin. simpl. apply Hvals. right. exact Hin.
    + intros hv Hin. apply Hfit. right. exact Hin.
Qed.

(** The loop stops at the first column whose header does not fit. *)
Lemma add_columns_raises keys cols header values rest : forall self,
  indexed keys (FluxDatabaseInit.base self) ->
  (forall hv, hv ∈ cols ++ [(header, values)] ->
     FluxDatabaseInit.column_values (FluxDatabaseInit.raw_database self) hv.1
     = Ok hv.2) ->
  (forall hv, hv ∈ cols -> fits keys hv.1) ->
  (exists name, name ∈ keys /\ name ∉ names (header_kwargs header)) \/
  (exists name, name ∈ names (header_kwargs header) /\ name ∉ keys) ->
  fst (FluxDatabaseInit.add_columns (map fst cols ++ header :: rest) self)
  = Raise (keyword_error (header_kwargs header)).
Proof.
  induction cols as [| [h v] cols IH]; intros self Hidx Hvals Hfit Hwrong.
  - simpl. unfold bind at 1, lift. rewrite extract_parameters.
    unfold bind at 1, gets. unfold bind at 1, lift.
    pose proof (Hvals (header, values) ltac:(left)) as Hv. simpl in Hv.
    rewrite Hv. simpl.
    unfold bind at 1, FluxDatabaseInit.on_base.
    fold (header_kwargs header).
    rewrite (add_raises (header_kwargs header) values _ _
               (make_db_key_wrong_names keys _ _ Hidx Hwrong)).
    reflexivity.
  - simpl. unfold bind at 1, lift. rewrite extract_parameters.
    unfold bind at 1, gets. unfold bind at 1, lift.
    pose proof (Hvals (h, v) ltac:(left)) as Hv. simpl in Hv.
    rewrite Hv. simpl.
    unfold bind at 1, FluxDatabaseInit.on_base.
    fold (header_kwargs h).
    rewrite (add_stores keys (header_kwargs h) v _ Hidx
               (fits_known keys h (Hfit (h, v) ltac:(left)))
               (fits_full keys h (Hfit (h, v) ltac:(left)))).
    apply IH.
    + simpl. apply indexed_with_database. exact Hidx.
    + intros hv Hin. simpl. apply Hvals. right. exact Hin.
    + intros hv Hin. apply Hfit. right. exact Hin.
    + exact Hwrong.
Qed.

Lemma stored_frame keys cols : forall d key,
  (forall hv, hv ∈ cols -> header_key keys hv.1 <> key) ->
  stored keys cols d !! key = d !! key.
Proof.
  unfold stored.
  induction cols as [| hv cols IH]; intros d key Hne; simpl.
  - reflexivity.
  - rewrite IH by (intros hv' Hin; apply Hne; right; exact Hin).
    apply lookup_insert_ne. apply Hne. left.
Qed.

(** The last column added under a key is the one the database holds. *)
Lemma stored_last keys before header values later d :
  (forall hv, hv ∈ later -> header_key keys hv.1 <> header_key keys header) ->
  stored keys (before ++ (header, values) :: later) d
  !! header_key keys header = Some values.
Proof.
  intros Hne. unfold stored. rewrite fold_left_app. simpl.
  fold (stored keys before d).
  fold (stored keys later
          (<[header_key keys header := values]> (stored keys before d))).
  rewrite stored_frame by exact Hne. apply lookup_insert_eq.
Qed.

End DatabaseConstruction.

Section DatabaseFromTable.

Import FluxDatabase.

Variable read_csv : string -> result FluxDatabaseInit.DataFrame.

Lemma fits_own_header header : fits (map fst (parameters header)) header.
Proof.
  intros name. unfold header_kwargs. rewrite as_kwargs_names. reflexivity.
Qed.

(** [_produce_database] up to the loop over the data columns. *)
Lemma produce_database_loop h0 t0 h1 v1 cols velocity :
  FluxDatabaseInit._produce_database
    {| FluxDatabaseInit.raw_database := (h0, t0) :: (h1, v1) :: cols;
       FluxDatabaseInit.time := None;
       FluxDatabaseInit.z := None;
       FluxDatabaseInit.base := FluxDatabase.empty velocity |}
  = FluxDatabaseInit.add_columns (h1 :: map fst cols)
      {| FluxDatabaseInit.raw_database := (h0, t0) :: (h1, v1) :: cols;
         FluxDatabaseInit.time := Some (map (fun x => (x / 1000)%float) t0);
         FluxDatabaseInit.z :=
           Some (map (fun x => (x * velocity)%float)
                   (map (fun x => (x / 1000)%float) t0));
         FluxDatabaseInit.base :=
           set_lut (index_of (map fst (parameters h1)))
             (FluxDatabase.empty velocity) |}.
Proof.
  unfold FluxDatabaseInit._produce_database, bind, gets, lift, modify.
  cbn [FluxDatabaseInit.raw_database].
  change (item ((h0, t0) :: (h1, v1) :: cols) 0) with (Ok (h0, t0)).
  cbv beta iota.
  change (item (map fst ((h0, t0) :: (h1, v1) :: cols)) 1) with (Ok h1).
  cbv beta iota. rewrite extract_parameters. reflexivity.
Qed.

(** A database built from an exported table answers with the table's
    columns.  When the table has a time column and data columns with
    headers of their own, each naming exactly the parameters of the first
    data column's header, none of them called [self]: the constructor
    returns, [time] is the first
    column divided by 1000 and [z] is [time] times the velocity, the index
    holds the parameter names of the first data header, and a query with
    the parameters of a column's header returns that column's values --
    unless a later column has the same parameter values, which then takes
    its place. *)
Theorem database_answers_with_columns :
  forall path velocity h0 t0 h1 v1 cols,
    read_csv path = Ok ((h0, t0) :: (h1, v1) :: cols) ->
    NoDup (map fst ((h0, t0) :: (h1, v1) :: cols)) ->
    "self" ∉ map fst (parameters h1) ->
    (forall hv, hv ∈ cols -> fits (map fst (parameters h1)) hv.1) ->
    exists self,
      FluxDatabaseInit.__init__ read_csv path velocity = Ok self /\
      FluxDatabaseInit.time self = Some (map (fun x => (x / 1000)%float) t0) /\
      FluxDatabaseInit.z self
      = Some (map (fun x => (x * velocity)%float)
                (map (fun x => (x / 1000)%float) t0)) /\
      indexed (map fst (parameters h1)) (FluxDatabaseInit.base self) /\
      forall before header values later,
        (h1, v1) :: cols = before ++ (header, values) :: later ->
        (forall hv, hv ∈ later ->
           header_key (map fst (parameters h1)) hv.1
           <> header_key (map fst (parameters h1)) header) ->
        query (header_kwargs header) (FluxDatabaseInit.base self)
        = (Ok values, FluxDatabaseInit.base self).
Proof.
  intros path velocity h0 t0 h1 v1 cols Hread Hnd Hself Hfit.
  set (keys := map fst (parameters h1)) in *.
  set (raw := (h0, t0) :: (h1, v1) :: cols) in *.
  set (self1 :=
         {| FluxDatabaseInit.raw_database := raw;
            FluxDatabaseInit.time := Some (map (fun x => (x / 1000)%float) t0);
            FluxDatabaseInit.z :=
              Some (map (fun x => (x * velocity)%float)
                      (map (fun x => (x / 1000)%float) t0));
            FluxDatabaseInit.base :=
              set_lut (index_of keys) (FluxDatabase.empty velocity) |}).
  assert (Hidx : indexed keys (FluxDatabaseInit.base self1)).
  { split; [ apply parameters_NoDup | split; [ reflexivity | exact Hself ] ]. }
  assert (Hfits : forall hv, hv ∈ (h1, v1) :: cols -> fits keys hv.1).
  { intros hv Hin. apply elem_of_cons in Hin as [-> | Hin].
    - apply fits_own_header.
    - apply Hfit. exact Hin. }
  assert (Hvals : forall hv, hv ∈ (h1, v1) :: cols ->
            FluxDatabaseInit.column_values
              (FluxDatabaseInit.raw_database self1) hv.1 = Ok hv.2).
  { intros [h v] Hin. apply column_values_elem; [ exact Hnd | ].
    right. exact Hin. }
  pose proof (add_columns_stores keys ((h1, v1) :: cols) self1 Hidx Hvals Hfits)
    as Hloop.
  eexists. split; [ | split; [ | split; [ | split ] ] ].
  - unfold FluxDatabaseInit.__init__. rewrite Hread. simpl result_bind.
    fold raw. unfold raw at 1. rewrite produce_database_loop.
    fold keys. fold raw. fold self1.
    change (h1 :: map fst cols) with (map fst ((h1, v1) :: cols)).
    rewrite Hloop. reflexivity.
  - reflexivity.
  - reflexivity.
  - simpl. apply indexed_with_database. exact Hidx.
  - intros before header values later Hsplit Hlater.
    assert (Hin : (header, values) ∈ (h1, v1) :: cols).
    { rewrite Hsplit. apply elem_of_app. right. left. }
    apply (query_finds keys).
    + simpl. apply indexed_with_database. exact Hidx.
    + apply fits_known. apply (Hfits (header, values) Hin).
    + apply fits_full. apply (Hfits (header, values) Hin).
    + change (stored keys ((h1, v1) :: cols)
                (database (FluxDatabaseInit.base self1))
              !! header_key keys header = Some values).
      rewrite Hsplit. apply stored_last. exact Hlater.
Qed.

(** A table with fewer than two columns cannot be turned into a database:
    the constructor raises [IndexError]. *)
Theorem table_without_data_raises :
  forall path velocity raw,
    read_csv path = Ok raw ->
    length raw < 2 ->
    FluxDatabaseInit.__init__ read_csv path velocity = Raise IndexError.
Proof.
  intros path velocity raw Hread Hlen.
  unfold FluxDatabaseInit.__init__. rewrite Hread. simpl.
  destruct raw as [| [h0 t0] [| c raw]]; [ reflexivity | reflexivity | ].
  simpl in Hlen. lia.
Qed.

(** A data column whose header misses a parameter of the first data header,
    or names another one, stops the construction, when the columns before
    it fit and the first data header names no parameter [self]: with
    [TypeError] when the column's header names a parameter [self], with
    [KeyError] otherwise. *)
Theorem ill_fitting_column_raises :
  forall path velocity h0 t0 h1 v1 cols good header values rest,
    read_csv path = Ok ((h0, t0) :: (h1, v1) :: cols) ->
    NoDup (map fst ((h0, t0) :: (h1, v1) :: cols)) ->
    "self" ∉ map fst (parameters h1) ->
    (h1, v1) :: cols = good ++ (header, values) :: rest ->
    (forall hv, hv ∈ good -> fits (map fst (parameters h1)) hv.1) ->
    (exists name,
        name ∈ map fst (parameters h1) /\
        name ∉ names (header_kwargs header)) \/
    (exists name,
        name ∈ names (header_kwargs header) /\
        name ∉ map fst (parameters h1)) ->
    FluxDatabaseInit.__init__ read_csv path velocity
    = Raise (keyword_error (header_kwargs header)).
Proof.
  intros path velocity h0 t0 h1 v1 cols good header values rest
    Hread Hnd Hself Hsplit Hfit Hwrong.
  set (keys := map fst (parameters h1)) in *.
  unfold FluxDatabaseInit.__init__. rewrite Hread. simpl result_bind.
  rewrite produce_database_loop. fold keys.
  match goal with
  | |- match FluxDatabaseInit.add_columns _ ?s with _ => _ end = _ =>
      set (self1 := s)
  end.
  assert (Hcols : h1 :: map fst cols
                  = map fst good ++ header :: map fst rest).
  { change (map fst ((h1, v1) :: cols)
            = map fst good ++ header :: map fst rest).
    rewrite Hsplit, map_app. reflexivity. }
  assert (Hloop : fst (FluxDatabaseInit.add_columns
                         (map fst good ++ header :: map fst rest) self1)
                  = Raise (keyword_error (header_kwargs header))).
  { apply (add_columns_raises keys good header values).
    - split; [ apply parameters_NoDup | split; [ reflexivity | exact Hself ] ].
    - intros [h v] Hin. apply column_values_elem; [ exact Hnd | ].
      right. rewrite Hsplit.
      apply elem_of_app in Hin as [Hin | Hin].
      + apply elem_of_app. left. exact Hin.
      + apply elem_of_app. right. apply list_elem_of_singleton in Hin.
        rewrite Hin. left.
    - exact Hfit.
    - exact Hwrong. }
  rewrite Hcols.
  destruct (FluxDatabaseInit.add_columns _ self1) as [r self'].
  simpl in Hloop. rewrite Hloop. reflexivity.
Qed.

(** The first [add] of the loop passes a parameter [self] on as a keyword
    named like the method's own first argument. *)
Lemma produce_database_self h0 t0 h1 v1 cols velocity :
  "self" ∈ map fst (parameters h1) ->
  fst (FluxDatabaseInit._produce_database
         {| FluxDatabaseInit.raw_database := (h0, t0) :: (h1, v1) :: cols;
            FluxDatabaseInit.time := None;
            FluxDatabaseInit.z := None;
            FluxDatabaseInit.base := FluxDatabase.empty velocity |})
  = Raise TypeError.
Proof.
  intros Hself. rewrite produce_database_loop.
  simpl FluxDatabaseInit.add_columns.
  unfold bind at 1, lift. rewrite extract_parameters.
  unfold bind at 1, gets. unfold bind at 1, lift.
  cbn [FluxDatabaseInit.raw_database FluxDatabaseInit.column_values].
  assert (Hadd : forall (values : list float) db,
            add (FluxDatabaseInit.as_kwargs (parameters h1)) values db
            = (Raise TypeError, db)).
  { intros values db. apply add_raises, make_db_key_self.
    rewrite as_kwargs_names. exact Hself. }
  destruct (decide (h0 = h1)); [ | destruct (decide (h1 = h1)) ];
    try contradiction;
    unfold bind at 1, FluxDatabaseInit.on_base; rewrite Hadd; reflexivity.
Qed.

(** [add] leaves the index alone, whether it stores or raises. *)
Lemma add_keeps_lut kw (v : list float) db :
  lut (after (add kw v) db) = lut db.
Proof.
  unfold after, add, bind.
  destruct (_make_db_key kw db) as [[db_key | e] db2] eqn:E;
    rewrite (make_db_key_lut kw db db eq_refl) in E;
    injection E as _ <-; reflexivity.
Qed.

(** So does the loop over the data columns. *)
Lemma add_columns_keep_lut cols : forall self,
  lut (FluxDatabaseInit.base (after (FluxDatabaseInit.add_columns cols) self))
  = lut (FluxDatabaseInit.base self).
Proof.
  induction cols as [| col cols IH]; intros self; [ reflexivity | ].
  unfold after. simpl FluxDatabaseInit.add_columns.
  unfold bind at 1, lift. rewrite extract_parameters.
  unfold bind at 1, gets. unfold bind at 1, lift.
  destruct (FluxDatabaseInit.column_values _ col) as [values | e];
    [ | reflexivity ].
  unfold bind at 1, FluxDatabaseInit.on_base.
  pose proof (add_keeps_lut
                (FluxDatabaseInit.as_kwargs (parameters col)) values
                (FluxDatabaseInit.base self)) as Hadd.
  unfold after in Hadd.
  destruct (add _ values (FluxDatabaseInit.base self)) as [[[] | e] b];
    simpl in Hadd.
  - fold (after (FluxDatabaseInit.add_columns cols)
            (FluxDatabaseInit.with_base b self)).
    rewrite IH. exact Hadd.
  - exact Hadd.
Qed.

(** A first data header that names a parameter [self] stops the
    construction with [TypeError]: the index is built, and the first [add]
    passes the parameter on as a keyword named like the method's own first
    argument. *)
Theorem first_header_naming_self_raises :
  forall path velocity h0 t0 h1 v1 cols,
    read_csv path = Ok ((h0, t0) :: (h1, v1) :: cols) ->
    "self" ∈ map fst (parameters h1) ->
    FluxDatabaseInit.__init__ read_csv path velocity = Raise TypeError.
Proof.
  intros path velocity h0 t0 h1 v1 cols Hread Hself.
  unfold FluxDatabaseInit.__init__. rewrite Hread. simpl result_bind.
  pose proof (produce_database_self h0 t0 h1 v1 cols velocity Hself) as H.
  destruct (FluxDatabaseInit._produce_database _) as [r self'].
  simpl in H. rewrite H. reflexivity.
Qed.

(** Every database the constructor returns is indexed: the table had a
    time column and a first data column, and the look-up table holds the
    parameter names of that column's header, which are distinct and do not
    include [self]. *)
Theorem constructed_database_is_indexed :
  forall path velocity self,
    FluxDatabaseInit.__init__ read_csv path velocity = Ok self ->
    exists h0 t0 h1 v1 cols,
      read_csv path = Ok ((h0, t0) :: (h1, v1) :: cols) /\
      indexed (map fst (parameters h1)) (FluxDatabaseInit.base self).
Proof.
  intros path velocity self Hinit.
  unfold FluxDatabaseInit.__init__ in Hinit.
  destruct (read_csv path) as [raw | e]; [ | discriminate ].
  simpl result_bind in Hinit.
  destruct raw as [| [h0 t0] [| [h1 v1] cols]];
    [ discriminate | discriminate | ].
  exists h0, t0, h1, v1, cols. split; [ reflexivity | ].
  destruct (decide ("self" ∈ map fst (parameters h1))) as [Hself | Hself].
  { pose proof (produce_database_self h0 t0 h1 v1 cols velocity Hself) as H.
    destruct (FluxDatabaseInit._produce_database _) as [r self'].
    simpl in H. rewrite H in Hinit. discriminate. }
  rewrite produce_database_loop in Hinit.
  match type of Hinit with
  | match FluxDatabaseInit.add_columns ?cs ?s with _ => _ end = _ =>
      pose proof (add_columns_keep_lut cs s) as Hlut
  end.
  unfold after in Hlut.
  destruct (FluxDatabaseInit.add_columns _ _) as [[[] | e] self'];
    [ | discriminate ].
  injection Hinit as <-. simpl in Hlut.
  split; [ apply parameters_NoDup | split; [ exact Hlut | exact Hself ] ].
Qed.

End DatabaseFromTable.

Lemma coil_table_headers : NoDup (map fst coil_table).
Proof. apply (bool_decide_unpack _). vm_compute. exact I. Defined.

Lemma ragged_table_headers : NoDup (map fst ragged_table).
Proof. apply (bool_decide_unpack _). vm_compute. exact I. Defined.

Lemma database_answers_with_columns_witness :
  exists self,
    FluxDatabaseInit.__init__ (reads coil_table) "flux.csv" 0.5%float = Ok self /\
    FluxDatabaseInit.time self
    = Some (map (fun x => (x / 1000)%float) [0; 1000; 2000]%float) /\
    FluxDatabaseInit.z self
    = Some (map (fun x => (x * 0.5)%float)
              (map (fun x => (x / 1000)%float) [0; 1000; 2000]%float)) /\
    FluxDatabase.indexed
      (map fst (parameters "Flux [Wb] - winding_num_r='15' winding_num_z='17'"))
      (FluxDatabaseInit.base self) /\
    forall before header values later,
      [ ("Flux [Wb] - winding_num_r='15' winding_num_z='17'", [1; 2; 1]%float);
        ("Flux [Wb] - winding_num_z='33' winding_num_r='15'", [3; 4; 3]%float) ]
      = before ++ (header, values) :: later ->
      (forall hv, hv ∈ later ->
         header_key
           (map fst
              (parameters "Flux [Wb] - winding_num_r='15' winding_num_z='17'"))
           hv.1
         <> header_key
              (map fst
                 (parameters
                    "Flux [Wb] - winding_num_r='15' winding_num_z='17'"))
              header) ->
      FluxDatabase.query (header_kwargs header) (FluxDatabaseInit.base self)
      = (Ok values, FluxDatabaseInit.base self).
Proof.
  apply (database_answers_with_columns (reads coil_table) "flux.csv" 0.5%float
           "Time [ms]" [0; 1000; 2000]%float
           "Flux [Wb] - winding_num_r='15' winding_num_z='17'" [1; 2; 1]%float
           [ ("Flux [Wb] - winding_num_z='33' winding_num_r='15'",
              [3; 4; 3]%float) ]).
  - reflexivity.
  - exact coil_table_headers.
  - apply (bool_decide_unpack _). vm_compute. exact I.
  - intros hv Hin. apply list_elem_of_singleton in Hin. rewrite Hin.
    intros name.
    change (name ∈ ["winding_num_z"; "winding_num_r"]
            <-> name ∈ ["winding_num_r"; "winding_num_z"]).
    rewrite !elem_of_cons, !elem_of_nil. tauto.
Defined.

Lemma table_without_data_raises_witness :
  FluxDatabaseInit.__init__ (reads time_only_table) "flux.csv" 0.5%float
  = Raise IndexError.
Proof.
  apply (table_without_data_raises (reads time_only_table) "flux.csv"
           0.5%float time_only_table).
  - reflexivity.
  - simpl. lia.
Defined.

Lemma ill_fitting_column_raises_witness :
  FluxDatabaseInit.__init__ (reads ragged_table) "flux.csv" 0.5%float
  = Raise KeyError.
Proof.
  apply (ill_fitting_column_raises (reads ragged_table) "flux.csv" 0.5%float
           "Time [ms]" [0; 1000; 2000]%float
           "Flux [Wb] - winding_num_r='15' winding_num_z='17'" [1; 2; 1]%float
           [ ("Flux [Wb] - winding_num_r='15'", [3; 4; 3]%float) ]
           [ ("Flux [Wb] - winding_num_r='15' winding_num_z='17'",
              [1; 2; 1]%float) ]
           "Flux [Wb] - winding_num_r='15'" [3; 4; 3]%float []).
  - reflexivity.
  - exact ragged_table_headers.
  - apply (bool_decide_unpack _). vm_compute. exact I.
  - reflexivity.
  - intros hv Hin. apply list_elem_of_singleton in Hin. rewrite Hin.
    apply fits_own_header.
  - left. exists "winding_num_z". split.
    + change ("winding_num_z" ∈ ["winding_num_r"; "winding_num_z"]).
      rewrite !elem_of_cons. tauto.
    + change ("winding_num_z" ∉ ["winding_num_r"]).
      rewrite list_elem_of_singleton. discriminate.
Defined.

Lemma first_header_naming_self_raises_witness :
  FluxDatabaseInit.__init__ (reads self_table) "flux.csv" 0.5%float
  = Raise TypeError.
Proof.
  apply (first_header_naming_self_raises (reads self_table) "flux.csv"
           0.5%float "Time [ms]" [0; 1000; 2000]%float
           "Flux [Wb] - self='1'" [1; 2; 1]%float []).
  - reflexivity.
  - apply (bool_decide_unpack _). vm_compute. exact I.
Defined.

Lemma constructed_database_is_indexed_witness :
  exists h0 t0 h1 v1 cols,
    reads coil_table "flux.csv" = Ok ((h0, t0) :: (h1, v1) :: cols) /\
    FluxDatabase.indexed (map fst (parameters h1))
      (FluxDatabaseInit.base coil_database).
Proof.
  apply (constructed_database_is_indexed (reads coil_table) "flux.csv"
           0.5%float coil_database).
  vm_compute. reflexivity.
Defined.

(** ** The header parser on the headers the field solver writes *)

Section WrittenHeaders.

Lemma string_app_cons c (a b : string) :
  String c a +:+ b = String c (a +:+ b).
Proof. reflexivity. Qed.

Lemma string_app_nil_r (a : string) : a +:+ EmptyString = a.
Proof.
  induction a as [| c a IH]; [ reflexivity | ].
  rewrite string_app_cons, IH. reflexivity.
Qed.

Lemma string_app_assoc (a b c : string) : (a +:+ b) +:+ c = a +:+ (b +:+ c).
Proof.
  induction a as [| x a IH]; [ reflexivity | ].
  rewrite !string_app_cons, IH. reflexivity.
Qed.

Lemma contains_app c (a b : string) :
  PyStr.contains c (a +:+ b) = PyStr.contains c a || PyStr.contains c b.
Proof.
  induction a as [| x a IH]; [ reflexivity | ].
  rewrite string_app_cons. simpl. rewrite IH. apply orb_assoc.
Qed.

Lemma remove_app c (a b : string) :
  PyStr.remove c (a +:+ b) = PyStr.remove c a +:+ PyStr.remove c b.
Proof.
  induction a as [| x a IH]; [ reflexivity | ].
  rewrite string_app_cons. simpl. rewrite IH.
  destruct (Ascii.eqb x c); reflexivity.
Qed.

Lemma remove_absent c (a : string) :
  PyStr.contains c a = false -> PyStr.remove c a = a.
Proof.
  induction a as [| x a IH]; simpl; [ reflexivity | ].
  intros H. apply orb_false_iff in H as [Hx Ha].
  rewrite Hx, IH by exact Ha. reflexivity.
Qed.

(** Reading a word: the characters join the word being read. *)
Lemma split_from_word (w : string) : forall rest acc,
  has_space w = false ->
  PyStr.split_from (w +:+ rest) acc = PyStr.split_from rest (acc +:+ w).
Proof.
  induction w as [| c w IH]; intros rest acc Hw.
  - rewrite string_app_nil_r. reflexivity.
  - simpl in Hw. apply orb_false_iff in Hw as [Hc Hw].
    rewrite string_app_cons. simpl. rewrite Hc.
    rewrite IH by exact Hw. rewrite string_app_assoc. reflexivity.
Qed.

(** Splitting a line of words separated by blanks gives the words back,
    empty ones left out. *)
Lemma split_join (words : list string) :
  Forall (fun w => has_space w = false) words ->
  PyStr.split (join words) = concat (map PyStr.flush words).
Proof.
  unfold PyStr.split.
  induction words as [| w words IH]; intros Hws; [ reflexivity | ].
  apply Forall_cons in Hws as [Hw Hws].
  destruct words as [| w' words].
  - simpl. rewrite <- (string_app_nil_r w) at 1.
    rewrite split_from_word by exact Hw. simpl. rewrite app_nil_r.
    reflexivity.
  - change (join (w :: w' :: words)) with (w +:+ " " +:+ join (w' :: words)).
    rewrite split_from_word by exact Hw.
    change (" " +:+ join (w' :: words))
      with (String " " (join (w' :: words))).
    change (EmptyString +:+ w) with w.
    change (PyStr.split_from (String " " (join (w' :: words))) w)
      with (PyStr.flush w
              ++ PyStr.split_from (join (w' :: words)) EmptyString).
    rewrite (IH Hws). reflexivity.
Qed.

Lemma split_on_from_word sep (w : string) : forall rest acc,
  PyStr.contains sep w = false ->
  PyStr.split_on_from sep (w +:+ rest) acc
  = PyStr.split_on_from sep rest (acc +:+ w).
Proof.
  induction w as [| c w IH]; intros rest acc Hw.
  - rewrite string_app_nil_r. reflexivity.
  - simpl in Hw. apply orb_false_iff in Hw as [Hc Hw].
    rewrite string_app_cons. simpl. rewrite Hc.
    rewrite IH by exact Hw. rewrite string_app_assoc. reflexivity.
Qed.

Lemma word_parts s :
  word s = true ->
  has_space s = false /\ PyStr.contains "=" s = false.
Proof.
  unfold word. intros H. apply andb_true_iff in H as [H1 H2].
  apply negb_true_iff in H1, H2. split; assumption.
Qed.

Lemma quotable_parts s :
  quotable s = true ->
  has_space s = false /\ PyStr.contains "=" s = false /\
  PyStr.contains "'" s = false.
Proof.
  unfold quotable. intros H. apply andb_true_iff in H as [H1 H2].
  apply word_parts in H1 as [Hs He]. apply negb_true_iff in H2.
  repeat split; assumption.
Qed.

Lemma has_space_app (a b : string) :
  has_space (a +:+ b) = has_space a || has_space b.
Proof.
  induction a as [| x a IH]; [ reflexivity | ].
  rewrite string_app_cons. simpl. rewrite IH. apply orb_assoc.
Qed.

(** What the parser reads off a [name='value'] token. *)
Lemma parameter_token_parts n v :
  word n = true -> quotable v = true ->
  has_space (parameter_token (n, v)) = false /\
  PyStr.contains "=" (parameter_token (n, v)) = true /\
  parameter_name (parameter_token (n, v)) = n /\
  parameter_value (parameter_token (n, v)) = v.
Proof.
  intros Hn Hv.
  apply word_parts in Hn as [Hns Hne].
  apply quotable_parts in Hv as (Hvs & Hve & Hvq).
  unfold parameter_token. simpl fst. simpl snd.
  assert (Hsplit : PyStr.split_on "=" (n +:+ "='" +:+ v +:+ "'")
                   = [n; "'" +:+ v +:+ "'"]).
  { unfold PyStr.split_on.
    rewrite split_on_from_word by exact Hne.
    change ("='" +:+ v +:+ "'") with (String "=" ("'" +:+ v +:+ "'")).
    change (EmptyString +:+ n) with n.
    change (PyStr.split_on_from "=" (String "=" ("'" +:+ v +:+ "'")) n)
      with (n :: PyStr.split_on_from "=" ("'" +:+ v +:+ "'") EmptyString).
    f_equal.
    rewrite <- (string_app_nil_r ("'" +:+ v +:+ "'")) at 1.
    rewrite split_on_from_word.
    - reflexivity.
    - rewrite !contains_app, Hve. reflexivity. }
  split; [ | split; [ | split ] ].
  - rewrite !has_space_app, Hns, Hvs. reflexivity.
  - rewrite !contains_app. simpl. rewrite orb_true_r. reflexivity.
  - unfold parameter_name. rewrite Hsplit. reflexivity.
  - unfold parameter_value. rewrite Hsplit. simpl default.
    rewrite !remove_app, (remove_absent _ v Hvq). simpl.
    apply string_app_nil_r.
Qed.

Lemma flush_token s :
  PyStr.contains "=" s = true -> PyStr.flush s = [s].
Proof. destruct s; [ discriminate | reflexivity ]. Qed.

Lemma filter_flush_word s :
  PyStr.contains "=" s = false ->
  List.filter (PyStr.contains "=") (PyStr.flush s) = [].
Proof.
  intros H. destruct s as [| c s]; [ reflexivity | ].
  simpl in *. rewrite H. reflexivity.
Qed.

Lemma fold_dict_set_distinct {A} (l : list (string * A)) : forall m : dict A,
  NoDup (map fst m ++ map fst l) ->
  fold_left (fun d nv => dict_set nv.1 nv.2 d) l m = m ++ l.
Proof.
  induction l as [| [k v] l IH]; intros m Hnd; simpl.
  - rewrite app_nil_r. reflexivity.
  - simpl in Hnd. rewrite dict_set_fresh.
    + rewrite IH.
      * rewrite <- app_assoc. reflexivity.
      * rewrite map_app. simpl. rewrite <- app_assoc. exact Hnd.
    + apply NoDup_app in Hnd as (_ & Hdisj & _).
      intros Hin. apply (Hdisj k Hin). left.
Qed.

Lemma title_has_no_parameters (title : list string) :
  Forall (fun w => word w = true) title ->
  List.filter (PyStr.contains "=") (concat (map PyStr.flush title)) = [].
Proof.
  induction title as [| w title IH]; intros H; [ reflexivity | ].
  apply Forall_cons in H as [Hw H]. simpl.
  rewrite List.filter_app, (IH H), app_nil_r.
  apply filter_flush_word. apply (word_parts w Hw).
Qed.

Lemma tokens_are_parameters (params : list (string * string)) :
  Forall (fun nv => word nv.1 = true /\ quotable nv.2 = true) params ->
  map (fun param => (parameter_name param, parameter_value param))
    (List.filter (PyStr.contains "=")
       (concat (map PyStr.flush (map parameter_token params))))
  = params.
Proof.
  induction params as [| [n v] params IH]; intros H; [ reflexivity | ].
  apply Forall_cons in H as [[Hn Hv] H]. simpl in Hn, Hv.
  destruct (parameter_token_parts n v Hn Hv) as (_ & Heq & Hname & Hvalue).
  simpl. rewrite (flush_token _ Heq). simpl. rewrite Heq. simpl.
  rewrite Hname, Hvalue, (IH H). reflexivity.
Qed.

(** The parser reads back what was written: on a header made of title
    words and [name='value'] tokens separated by blanks -- names and values
    without white space and [=], values without apostrophes -- it returns
    the names with their values, in the order written; a name written twice
    keeps its first place and its last value, and with distinct names the
    result is the written list itself. *)
Theorem parser_reads_written_header :
  forall (title : list string) (params : list (string * string)),
    Forall (fun w => word w = true) title ->
    Forall (fun nv => word nv.1 = true /\ quotable nv.2 = true) params ->
    FluxDatabaseInit._extract_parameter_from_str
      (join (title ++ map parameter_token params))
    = Ok (fold_left (fun d nv => dict_set nv.1 nv.2 d) params []) /\
    (NoDup (map fst params) ->
     FluxDatabaseInit._extract_parameter_from_str
       (join (title ++ map parameter_token params))
     = Ok params).
Proof.
  intros title params Htitle Hparams.
  assert (Hparse : FluxDatabaseInit._extract_parameter_from_str
                     (join (title ++ map parameter_token params))
                   = Ok (fold_left (fun d nv => dict_set nv.1 nv.2 d)
                           params [])).
  { rewrite extract_parameters. unfold parameters.
    rewrite split_join.
    - rewrite map_app, concat_app, List.filter_app.
      rewrite (title_has_no_parameters title Htitle). simpl.
      rewrite (tokens_are_parameters params Hparams). reflexivity.
    - apply Forall_app. split.
      + eapply Forall_impl; [ exact Htitle | ].
        intros w Hw. apply (word_parts w Hw).
      + apply Forall_map. eapply Forall_impl; [ exact Hparams | ].
        intros [n v] [Hn Hv]. simpl in *.
        apply (parameter_token_parts n v Hn Hv). }
  split; [ exact Hparse | ].
  intros Hnd. rewrite Hparse. f_equal.
  apply (fold_dict_set_distinct params []). exact Hnd.
Qed.

End WrittenHeaders.

Lemma parser_reads_written_header_witness :
  FluxDatabaseInit._extract_parameter_from_str
    (join (flux_title ++ map parameter_token coil_parameters))
  = Ok (fold_left (fun d nv => dict_set nv.1 nv.2 d) coil_parameters []) /\
  (NoDup (map fst coil_parameters) ->
   FluxDatabaseInit._extract_parameter_from_str
     (join (flux_title ++ map parameter_token coil_parameters))
   = Ok coil_parameters).
Proof.
  apply (parser_reads_written_header flux_title coil_parameters).
  - unfold flux_title. repeat constructor.
  - unfold coil_parameters. repeat constructor.
Defined.



(** ** The header parser on any header *)

Section AnyHeader.

Lemma has_space_snoc (a : string) c :
  has_space (a +:+ String c EmptyString) = has_space a || PyStr.isspace c.
Proof. rewrite has_space_app. simpl. rewrite orb_false_r. reflexivity. Qed.

Lemma contains_snoc x (a : string) c :
  PyStr.contains x (a +:+ String c EmptyString)
  = PyStr.contains x a || Ascii.eqb c x.
Proof. rewrite contains_app. simpl. rewrite orb_false_r. reflexivity. Qed.

Lemma flush_Forall (P : string -> Prop) w :
  P w -> Forall P (PyStr.flush w).
Proof. intros H. destruct w; simpl; repeat constructor; exact H. Qed.

(** The words of [split] hold no white space. *)
Lemma split_from_no_space s : forall acc,
  has_space acc = false ->
  Forall (fun w => has_space w = false) (PyStr.split_from s acc).
Proof.
  induction s as [| c s IH]; intros acc Hacc; simpl.
  - apply flush_Forall. exact Hacc.
  - destruct (PyStr.isspace c) eqn:Hc.
    + apply Forall_app. split; [ apply flush_Forall; exact Hacc | ].
      apply IH. reflexivity.
    + apply IH. rewrite has_space_snoc, Hacc, Hc. reflexivity.
Qed.

(** A character that is not in the text is in none of its words. *)
Lemma split_from_lacks x s : forall acc,
  PyStr.contains x s = false -> PyStr.contains x acc = false ->
  Forall (fun w => PyStr.contains x w = false) (PyStr.split_from s acc).
Proof.
  induction s as [| c s IH]; intros acc Hs Hacc; simpl in *.
  - apply flush_Forall. exact Hacc.
  - apply orb_false_iff in Hs as [Hc Hs].
    destruct (PyStr.isspace c).
    + apply Forall_app. split; [ apply flush_Forall; exact Hacc | ].
      apply IH; [ exact Hs | reflexivity ].
    + apply IH; [ exact Hs | ].
      rewrite contains_snoc, Hacc, Hc. reflexivity.
Qed.

(** The pieces of [split_on] hold neither the separator nor white space
    the text did not hold. *)
Lemma split_on_from_pieces sep s : forall acc,
  has_space s = false -> has_space acc = false ->
  PyStr.contains sep acc = false ->
  Forall (fun piece =>
            has_space piece = false /\ PyStr.contains sep piece = false)
    (PyStr.split_on_from sep s acc).
Proof.
  induction s as [| c s IH]; intros acc Hs Hacc Hsep; simpl in *.
  - repeat constructor; assumption.
  - apply orb_false_iff in Hs as [Hc Hs].
    destruct (Ascii.eqb c sep) eqn:E.
    + constructor; [ split; assumption | ]. apply IH; auto.
    + apply IH.
      * exact Hs.
      * rewrite has_space_snoc, Hacc, Hc. reflexivity.
      * rewrite contains_snoc, Hsep, E. reflexivity.
Qed.

Lemma remove_lacks c (a : string) : PyStr.contains c (PyStr.remove c a) = false.
Proof.
  induction a as [| x a IH]; simpl; [ reflexivity | ].
  destruct (Ascii.eqb x c) eqn:E; simpl; [ exact IH | ].
  rewrite E, IH. reflexivity.
Qed.

Lemma remove_keeps_absent x c (a : string) :
  PyStr.contains x a = false -> PyStr.contains x (PyStr.remove c a) = false.
Proof.
  induction a as [| y a IH]; simpl; [ reflexivity | ].
  intros H. apply orb_false_iff in H as [Hy Ha].
  destruct (Ascii.eqb y c); simpl; [ apply IH; exact Ha | ].
  rewrite Hy, IH by exact Ha. reflexivity.
Qed.

Lemma remove_no_space c (a : string) :
  has_space a = false -> has_space (PyStr.remove c a) = false.
Proof.
  induction a as [| y a IH]; simpl; [ reflexivity | ].
  intros H. apply orb_false_iff in H as [Hy Ha].
  destruct (Ascii.eqb y c); simpl; [ apply IH; exact Ha | ].
  rewrite Hy, IH by exact Ha. reflexivity.
Qed.

Lemma dict_set_entries {A} (P : string * A -> Prop) k (v : A) (m : dict A) :
  P (k, v) -> Forall P m -> Forall P (dict_set k v m).
Proof.
  intros Hkv. induction m as [| [k' v'] m IH]; simpl; intros Hm.
  - repeat constructor. exact Hkv.
  - apply Forall_cons in Hm as [Hk' Hm].
    destruct (decide (k' = k)); constructor; auto.
Qed.

Lemma fold_dict_set_entries {A} (P : string * A -> Prop)
    (l : list (string * A)) : forall m : dict A,
  Forall P l -> Forall P m ->
  Forall P (fold_left (fun d nv => dict_set nv.1 nv.2 d) l m).
Proof.
  induction l as [| [k v] l IH]; intros m Hl Hm; simpl.
  - exact Hm.
  - apply Forall_cons in Hl as [Hkv Hl].
    apply IH; [ exact Hl | ]. apply dict_set_entries; assumption.
Qed.

Lemma lookup_default_Forall (P : string -> Prop) (l : list string) i :
  P EmptyString -> Forall P l -> P (default EmptyString (l !! i)).
Proof.
  intros H0 Hl. destruct (l !! i) as [x |] eqn:E; simpl; [ | exact H0 ].
  rewrite Forall_forall in Hl. apply Hl.
  apply list_elem_of_lookup. eauto.
Qed.

(** Whatever the header, the parser returns a dictionary and never raises;
    its names are distinct, names and values hold no white space and no
    [=], and values hold no apostrophe; a header without [=] gives the
    empty dictionary. *)
Theorem parser_never_raises :
  forall header : string,
    exists d,
      FluxDatabaseInit._extract_parameter_from_str header = Ok d /\
      NoDup (map fst d) /\
      Forall (fun nv : string * string =>
                word nv.1 = true /\ quotable nv.2 = true) d /\
      (PyStr.contains "=" header = false -> d = []).
Proof.
  intros header. exists (parameters header).
  split; [ apply extract_parameters | ].
  split; [ apply parameters_NoDup | ].
  split.
  - unfold parameters. apply fold_dict_set_entries; [ | constructor ].
    apply Forall_map. apply Forall_forall. intros p Hp.
    apply list_elem_of_In, filter_In in Hp as [Hp _].
    apply list_elem_of_In in Hp.
    pose proof (split_from_no_space header EmptyString eq_refl) as Hwords.
    rewrite Forall_forall in Hwords. specialize (Hwords p Hp).
    pose proof (split_on_from_pieces "=" p EmptyString Hwords eq_refl eq_refl)
      as Hpieces.
    simpl fst. simpl snd. split.
    + unfold word, parameter_name.
      pose proof (lookup_default_Forall _ _ 0 (conj eq_refl eq_refl) Hpieces)
        as [H1 H2].
      fold (PyStr.split_on "=" p) in H1, H2. rewrite H1, H2. reflexivity.
    + unfold quotable, word, parameter_value.
      pose proof (lookup_default_Forall _ _ 1 (conj eq_refl eq_refl) Hpieces)
        as [H1 H2].
      fold (PyStr.split_on "=" p) in H1, H2.
      rewrite (remove_no_space _ _ H1), (remove_keeps_absent _ _ _ H2),
        remove_lacks.
      reflexivity.
  - intros Hno. unfold parameters.
    pose proof (split_from_lacks "=" header EmptyString Hno eq_refl) as Hwords.
    fold (PyStr.split header) in Hwords.
    induction Hwords as [| w ws Hw _ IH]; [ reflexivity | ].
    simpl. rewrite Hw. exact IH.
Qed.

End AnyHeader.
